(** * Weave API: the HTTP boundary and the Thread Integrity Ledger

    A shallow embedding of the Express route handlers of the Weave API
    ([routes/domere.ts], the Mund routes and the API-key middleware) and,
    for the operations whose implementation lives in the service classes
    that the routes only import, a model of the ledger, the chain engine,
    the drift detector and anchor submission written from the
    specification.

    The handlers are [async] functions that validate the request body,
    [await] one method of a shared service object inside a [try] block and
    answer either with the result or, from the [catch] block, with status
    500.  A handler is embedded as a small program over service calls
    ([Handler]); running it against an arbitrary service yields the
    response, the list of service calls made and the new service state. *)

From Stdlib Require Import QArith.
From stdpp Require Import base option list strings pretty gmap stringmap.

Open Scope string_scope.

(** ** JavaScript values at the boundary *)

Module Js.

(** A JavaScript number: the value of an IEEE double read as a rational,
    or one of the special values. *)
Inductive Number : Type :=
  | NumNaN
  | NumInfinity (negative : bool)
  | NumFinite (q : Q).

(** The values a parsed JSON body, a query string or a service result can
    hold. *)
#[warnings="-register-all"]
Inductive Val : Type :=
  | Undefined
  | Null
  | Bool (b : bool)
  | Num (n : Number)
  | Str (s : string)
  | Arr (items : list Val)
  | Obj (fields : list (string * Val)).

Definition number_truthy (n : Number) : bool :=
  match n with
  | NumNaN => false
  | NumInfinity _ => true
  | NumFinite q => negb (Qeq_bool q 0)
  end.

(** ToBoolean: [undefined], [null], [false], [0], [NaN] and the empty
    string are falsy; every array and every object is truthy. *)
Definition truthy (v : Val) : bool :=
  match v with
  | Undefined | Null => false
  | Bool b => b
  | Num n => number_truthy n
  | Str s => negb (String.eqb s "")
  | Arr _ | Obj _ => true
  end.

(** [!v] *)
Definition falsy (v : Val) : bool := negb (truthy v).

(** An own property of a parsed object, [undefined] when absent; this is
    what the destructuring [const { k } = req.body] binds. *)
Definition prop (o : gmap string Val) (k : string) : Val :=
  default Undefined (o !! k).

End Js.

(** ** Requests, responses and the service interface *)

(** The error taxonomy of the specification (section 7). *)
Inductive ErrorKind : Type :=
  | ValidationError
  | NotFound
  | Conflict
  | IntegrityViolation
  | AdapterError
  | InternalError.

(** A value thrown by a service method: the kind of the failure and the
    text that [String(error)] produces for it. *)
Record Failure : Type := mkFailure {
  failure_kind : ErrorKind;
  failure_text : string
}.

(** [String(error)] in the [catch] blocks. *)
Definition String_ (error : Failure) : string := failure_text error.

(** The settlement of an awaited service promise. *)
Inductive Outcome : Type :=
  | Resolved (result : Js.Val)
  | Rejected (error : Failure).

(** [req.params.id] (or [req.params.thread_id]), [req.body] as the JSON
    body parser leaves it (an object, empty when the request has no body)
    and [req.query].  None of the keys the handlers read is a property of
    [Object.prototype], so reading an absent key gives [undefined]. *)
Record Request : Type := mkRequest {
  params_id : string;
  body : gmap string Js.Val;
  query : gmap string Js.Val
}.

Record Response : Type := mkResponse {
  status : nat;
  json : Js.Val
}.

(** [limit ? parseInt(limit) : undefined] in the list route: the argument
    is kept symbolically, with the string that [parseInt] is applied to. *)
Inductive LimitArg : Type :=
  | LimitUndefined
  | LimitParseInt (raw : Js.Val).

(** One method call on a service object, with its arguments. *)
Inductive Call : Type :=
  (* DomereService *)
  | CreateThread (origin_type origin_identity intent constraints metadata : Js.Val)
  | ListThreads (status origin_identity : Js.Val) (limit : LimitArg)
  | GetThread (id : string)
  | AddHop (thread_id : string) (agent_id agent_type received_intent actions : Js.Val)
  | CloseThread (id : string) (outcome : Js.Val)
  | VerifyThread (id : string)
  | AnalyzeIntent (content : Js.Val)
  | CheckDrift (original_intent current_intent constraints : Js.Val)
  | CompareIntents (intent1 intent2 : Js.Val)
  | DetectLanguage (content : Js.Val)
  | AnalyzeContent (content : Js.Val)
  | CheckInjection (content : Js.Val)
  | EstimateAnchorCost (network : Js.Val)
  | PrepareAnchor (thread_id network : Js.Val)
  | SubmitAnchor (network signed_transaction : Js.Val)
  | VerifyAnchor (network thread_id merkle_root : Js.Val)
  | GetAnchorStatus (thread_id : string)
  (* MundService *)
  | Scan (content scan_types : Js.Val)
  | ScanSecrets (content : Js.Val)
  | ScanPII (content : Js.Val)
  | ScanInjection (content : Js.Val)
  | ScanExfiltration (content : Js.Val)
  | AnalyzeCode (code language : Js.Val)
  | GetRules
  | AddRule (rule : gmap string Js.Val)
  | EnableRule (id : string)
  | DisableRule (id : string)
  | GetStats.

(** A handler body: it answers, or awaits a service call and goes on with
    the settlement of the promise. *)
Inductive Handler : Type :=
  | Respond (r : Response)
  | Await (c : Call) (k : Outcome → Handler).

(** A service object with state [St]: every method call settles and may
    change the state. *)
Definition Service (St : Type) : Type := Call → St → Outcome * St.

(** What running a handler leaves behind. *)
Record Run (St : Type) : Type := mkRun {
  response : Response;
  calls : list Call;
  final : St
}.
Arguments mkRun {St} _ _ _.
Arguments response {St} _.
Arguments calls {St} _.
Arguments final {St} _.

Fixpoint run {St : Type} (svc : Service St) (h : Handler) (s : St) : Run St :=
  match h with
  | Respond r => mkRun r [] s
  | Await c k =>
      let settled := svc c s in
      let rest := run svc (k settled.1) settled.2 in
      mkRun (response rest) (c :: calls rest) (final rest)
  end.

(** ** The route handlers *)

Module Routes.

(** [res.json(v)]: status 200. *)
Definition res_json (v : Js.Val) : Response := mkResponse 200 v.

(** [res.status(code).json({ error: message })] *)
Definition res_error (code : nat) (message : string) : Response :=
  mkResponse code (Js.Obj [("error", Js.Str message)]).

(** The tail shared by every handler:
    [res.json(result)] in the [try] block,
    [res.status(500).json({ error: String(error) })] in the [catch]. *)
Definition settle (o : Outcome) : Handler :=
  match o with
  | Resolved result => Respond (res_json result)
  | Rejected error => Respond (res_error 500 (String_ error))
  end.

(** [try { const result = await call; res.json(result) } catch ...] *)
Definition try_await (c : Call) : Handler := Await c settle.

(** POST /api/v1/domere/threads *)
Definition post_threads (req : Request) : Handler :=
  let origin_type := Js.prop (body req) "origin_type" in
  let origin_identity := Js.prop (body req) "origin_identity" in
  let intent := Js.prop (body req) "intent" in
  let constraints := Js.prop (body req) "constraints" in
  let metadata := Js.prop (body req) "metadata" in
  if Js.falsy origin_type || Js.falsy origin_identity || Js.falsy intent then
    Respond (res_error 400 "origin_type, origin_identity, and intent are required")
  else
    try_await (CreateThread origin_type origin_identity intent constraints metadata).

(** GET /api/v1/domere/threads *)
Definition get_threads (req : Request) : Handler :=
  let status := Js.prop (query req) "status" in
  let origin_identity := Js.prop (query req) "origin_identity" in
  let limit := Js.prop (query req) "limit" in
  try_await
    (ListThreads status origin_identity
       (if Js.truthy limit then LimitParseInt limit else LimitUndefined)).

(** GET /api/v1/domere/threads/:id *)
Definition get_thread (req : Request) : Handler :=
  try_await (GetThread (params_id req)).

(** POST /api/v1/domere/threads/:id/hops *)
Definition post_hops (req : Request) : Handler :=
  let agent_id := Js.prop (body req) "agent_id" in
  let agent_type := Js.prop (body req) "agent_type" in
  let received_intent := Js.prop (body req) "received_intent" in
  let actions := Js.prop (body req) "actions" in
  if Js.falsy agent_id || Js.falsy agent_type || Js.falsy received_intent
     || Js.falsy actions then
    Respond (res_error 400 "agent_id, agent_type, received_intent, and actions are required")
  else
    try_await (AddHop (params_id req) agent_id agent_type received_intent actions).

(** POST /api/v1/domere/threads/:id/close *)
Definition post_close (req : Request) : Handler :=
  let outcome := Js.prop (body req) "outcome" in
  if Js.falsy outcome then
    Respond (res_error 400 "outcome is required (success, failure, abandoned)")
  else
    try_await (CloseThread (params_id req) outcome).

(** POST /api/v1/domere/threads/:id/verify *)
Definition post_verify (req : Request) : Handler :=
  try_await (VerifyThread (params_id req)).

(** The six routes that take one required [content] (or [code]) field. *)
Definition with_required (field message : string) (call : Js.Val → Call)
    (req : Request) : Handler :=
  let content := Js.prop (body req) field in
  if Js.falsy content then Respond (res_error 400 message)
  else try_await (call content).

(** POST /api/v1/domere/intent/analyze *)
Definition post_intent_analyze : Request → Handler :=
  with_required "content" "content is required" AnalyzeIntent.

(** POST /api/v1/domere/drift/check *)
Definition post_drift_check (req : Request) : Handler :=
  let original_intent := Js.prop (body req) "original_intent" in
  let current_intent := Js.prop (body req) "current_intent" in
  let constraints := Js.prop (body req) "constraints" in
  if Js.falsy original_intent || Js.falsy current_intent then
    Respond (res_error 400 "original_intent and current_intent are required")
  else
    try_await (CheckDrift original_intent current_intent constraints).

(** POST /api/v1/domere/intent/compare *)
Definition post_intent_compare (req : Request) : Handler :=
  let intent1 := Js.prop (body req) "intent1" in
  let intent2 := Js.prop (body req) "intent2" in
  if Js.falsy intent1 || Js.falsy intent2 then
    Respond (res_error 400 "intent1 and intent2 are required")
  else
    try_await (CompareIntents intent1 intent2).

(** POST /api/v1/domere/language/detect *)
Definition post_language_detect : Request → Handler :=
  with_required "content" "content is required" DetectLanguage.

(** POST /api/v1/domere/language/analyze *)
Definition post_language_analyze : Request → Handler :=
  with_required "content" "content is required" AnalyzeContent.

(** POST /api/v1/domere/injection/check *)
Definition post_injection_check : Request → Handler :=
  with_required "content" "content is required" CheckInjection.

(** GET /api/v1/domere/anchor/estimate *)
Definition get_anchor_estimate (req : Request) : Handler :=
  let network := Js.prop (query req) "network" in
  if Js.falsy network then
    Respond (res_error 400 "network query param is required (solana, ethereum)")
  else
    try_await (EstimateAnchorCost network).

(** POST /api/v1/domere/anchor/prepare *)
Definition post_anchor_prepare (req : Request) : Handler :=
  let thread_id := Js.prop (body req) "thread_id" in
  let network := Js.prop (body req) "network" in
  if Js.falsy thread_id || Js.falsy network then
    Respond (res_error 400 "thread_id and network are required")
  else
    try_await (PrepareAnchor thread_id network).

(** POST /api/v1/domere/anchor/submit *)
Definition post_anchor_submit (req : Request) : Handler :=
  let network := Js.prop (body req) "network" in
  let signed_transaction := Js.prop (body req) "signed_transaction" in
  if Js.falsy network || Js.falsy signed_transaction then
    Respond (res_error 400 "network and signed_transaction are required")
  else
    try_await (SubmitAnchor network signed_transaction).

(** POST /api/v1/domere/anchor/verify *)
Definition post_anchor_verify (req : Request) : Handler :=
  let network := Js.prop (body req) "network" in
  let thread_id := Js.prop (body req) "thread_id" in
  let merkle_root := Js.prop (body req) "merkle_root" in
  if Js.falsy network || Js.falsy thread_id || Js.falsy merkle_root then
    Respond (res_error 400 "network, thread_id, and merkle_root are required")
  else
    try_await (VerifyAnchor network thread_id merkle_root).

(** GET /api/v1/domere/anchor/:thread_id/status *)
Definition get_anchor_status (req : Request) : Handler :=
  try_await (GetAnchorStatus (params_id req)).

(** POST /api/v1/mund/scan *)
Definition post_scan (req : Request) : Handler :=
  let content := Js.prop (body req) "content" in
  let scan_types := Js.prop (body req) "scan_types" in
  if Js.falsy content then Respond (res_error 400 "content is required")
  else try_await (Scan content scan_types).

(** POST /api/v1/mund/scan/secrets *)
Definition post_scan_secrets : Request → Handler :=
  with_required "content" "content is required" ScanSecrets.

(** POST /api/v1/mund/scan/pii *)
Definition post_scan_pii : Request → Handler :=
  with_required "content" "content is required" ScanPII.

(** POST /api/v1/mund/scan/injection *)
Definition post_scan_injection : Request → Handler :=
  with_required "content" "content is required" ScanInjection.

(** POST /api/v1/mund/scan/exfiltration *)
Definition post_scan_exfiltration : Request → Handler :=
  with_required "content" "content is required" ScanExfiltration.

(** POST /api/v1/mund/scan/code *)
Definition post_scan_code (req : Request) : Handler :=
  let code := Js.prop (body req) "code" in
  let language := Js.prop (body req) "language" in
  if Js.falsy code then Respond (res_error 400 "code is required")
  else try_await (AnalyzeCode code language).

(** GET /api/v1/mund/rules *)
Definition get_rules (_ : Request) : Handler := try_await GetRules.

(** POST /api/v1/mund/rules *)
Definition post_rules (req : Request) : Handler := try_await (AddRule (body req)).

(** PUT /api/v1/mund/rules/:id/enable *)
Definition put_rule_enable (req : Request) : Handler :=
  try_await (EnableRule (params_id req)).

(** PUT /api/v1/mund/rules/:id/disable *)
Definition put_rule_disable (req : Request) : Handler :=
  try_await (DisableRule (params_id req)).

(** GET /api/v1/mund/stats *)
Definition get_stats (_ : Request) : Handler := try_await GetStats.

(** The operations the two routers expose. *)
Inductive Route : Type :=
  | PostThreads | GetThreads | GetThreadById | PostHops | PostClose | PostVerify
  | PostIntentAnalyze | PostDriftCheck | PostIntentCompare
  | PostLanguageDetect | PostLanguageAnalyze | PostInjectionCheck
  | GetAnchorEstimate | PostAnchorPrepare | PostAnchorSubmit | PostAnchorVerify
  | GetAnchorStatusOf
  | PostScan | PostScanSecrets | PostScanPII | PostScanInjection
  | PostScanExfiltration | PostScanCode
  | GetRulesAll | PostRules | PutRuleEnable | PutRuleDisable | GetStatsAll.

Definition handler (r : Route) : Request → Handler :=
  match r with
  | PostThreads => post_threads
  | GetThreads => get_threads
  | GetThreadById => get_thread
  | PostHops => post_hops
  | PostClose => post_close
  | PostVerify => post_verify
  | PostIntentAnalyze => post_intent_analyze
  | PostDriftCheck => post_drift_check
  | PostIntentCompare => post_intent_compare
  | PostLanguageDetect => post_language_detect
  | PostLanguageAnalyze => post_language_analyze
  | PostInjectionCheck => post_injection_check
  | GetAnchorEstimate => get_anchor_estimate
  | PostAnchorPrepare => post_anchor_prepare
  | PostAnchorSubmit => post_anchor_submit
  | PostAnchorVerify => post_anchor_verify
  | GetAnchorStatusOf => get_anchor_status
  | PostScan => post_scan
  | PostScanSecrets => post_scan_secrets
  | PostScanPII => post_scan_pii
  | PostScanInjection => post_scan_injection
  | PostScanExfiltration => post_scan_exfiltration
  | PostScanCode => post_scan_code
  | GetRulesAll => get_rules
  | PostRules => post_rules
  | PutRuleEnable => put_rule_enable
  | PutRuleDisable => put_rule_disable
  | GetStatsAll => get_stats
  end.

End Routes.

(** ** The API-key middleware *)

Module Middleware.

(** [String.prototype.replace] with a string pattern: the first occurrence
    of the pattern is replaced, the rest of the string is kept. *)
Fixpoint strip_prefix (pattern s : string) : option string :=
  match pattern, s with
  | EmptyString, _ => Some s
  | String p pattern', String c s' =>
      if Ascii.eqb p c then strip_prefix pattern' s' else None
  | String _ _, EmptyString => None
  end.

Fixpoint replace (pattern replacement s : string) : string :=
  match strip_prefix pattern s with
  | Some rest => replacement ++ rest
  | None =>
      match s with
      | EmptyString => EmptyString
      | String c s' => String c (replace pattern replacement s')
      end
  end.

(** ToBoolean of a header value: a string or [undefined]. *)
Definition truthy (h : option string) : bool :=
  match h with
  | Some s => negb (String.eqb s "")
  | None => false
  end.

(** [req.headers['x-api-key'] ||
     req.headers['authorization']?.replace('Bearer ', '')] *)
Definition presented_key (headers : gmap string string) : option string :=
  let x_api_key := headers !! "x-api-key" in
  if truthy x_api_key then x_api_key
  else replace "Bearer " "" <$> headers !! "authorization".

(** How the middleware leaves the request: answered, or passed on. *)
Inductive Verdict : Type :=
  | Answered (r : Response)
  | Next.

(** [apiKeyAuth], with [process.env.WEAVE_API_KEY] as an argument
    ([None] when the variable is unset). *)
Definition apiKeyAuth (WEAVE_API_KEY : option string)
    (headers : gmap string string) : Verdict :=
  let apiKey := presented_key headers in
  if negb (truthy apiKey) then
    Answered (Routes.res_error 401 "API key required")
  else if negb (bool_decide (apiKey = WEAVE_API_KEY)) then
    Answered (Routes.res_error 403 "Invalid API key")
  else Next.

(** Whether [pattern] occurs somewhere in [s]. *)
Fixpoint occurs (pattern s : string) : bool :=
  match strip_prefix pattern s with
  | Some _ => true
  | None =>
      match s with
      | EmptyString => false
      | String _ s' => occurs pattern s'
      end
  end.

End Middleware.

(** ** The service operations behind the routes

    [DomereService] is imported by the routes from [../services/domere.js];
    the operations below are written from the specification (sections 3,
    4 and 7). *)

Module Ledger.

Definition Hash : Type := string.

(** Modelled from the spec: the enumerations of a [DomereService] thread
    (section 3). *)
Inductive OriginType : Type := human | system | scheduled | delegated.
Inductive Status : Type := open | closed.
Inductive ThreadOutcome : Type := success | failure | abandoned.

(** Modelled from the spec: the hop of section 3, as [DomereService]
    stores it; these are the fields that enter its hash. *)
Record HopFields : Type := mkHopFields {
  sequence_number : nat;
  agent_id : string;
  agent_type : string;
  received_intent : string;
  actions : list string;
  timestamp : nat
}.

(** Modelled from the spec: a stored hop of [DomereService], its fields
    with the link to the previous hash and its own hash. *)
Record Hop : Type := mkHop {
  hop_fields : HopFields;
  prev_hash : Hash;
  hash : Hash
}.

(** Modelled from the spec: the thread of section 3; [anchor_refs] is
    left out, no operation modelled here reads or writes it. *)
Record Thread : Type := mkThread {
  id : string;
  origin_type : OriginType;
  origin_identity : string;
  intent : string;
  constraints : list string;
  status : Status;
  outcome : option ThreadOutcome;
  hops : list Hop;
  head_hash : Hash;
  created_at : nat;
  closed_at : option nat
}.

(** Modelled from the spec: the failures that sections 4.3 and 4.4 name
    for the ledger operations and for anchor submission. *)
Inductive Error : Type :=
  | Invalid (message : string)
  | ThreadNotFound (thread_id : string)
  | ThreadClosed (thread_id : string)
  | AlreadyClosed (thread_id : string)
  | SubmissionError (detail : string).

(** Modelled from the spec: the kind of each failure in the taxonomy of
    section 7, where [ThreadClosed] and [AlreadyClosed] are conflicts and
    a failed submission is an adapter error. *)
Definition kind_of (e : Error) : ErrorKind :=
  match e with
  | Invalid _ => ValidationError
  | ThreadNotFound _ => NotFound
  | ThreadClosed _ | AlreadyClosed _ => Conflict
  | SubmissionError _ => AdapterError
  end.

(** Modelled from the spec: the text of a failure.  The specification
    fixes only that an adapter failure is surfaced with the adapter's own
    detail; the text here is the name of the failure followed by its
    detail. *)
Definition text_of (e : Error) : string :=
  match e with
  | Invalid message => "ValidationError: " ++ message
  | ThreadNotFound thread_id => "NotFound: thread " ++ thread_id
  | ThreadClosed thread_id => "ThreadClosed: thread " ++ thread_id
  | AlreadyClosed thread_id => "AlreadyClosed: thread " ++ thread_id
  | SubmissionError detail => "AdapterError: " ++ detail
  end.

(** Modelled from the spec: the value a [DomereService] method throws for
    a failure. *)
Definition thrown (e : Error) : Failure := mkFailure (kind_of e) (text_of e).

(** *** A state and error monad for the operations *)

Definition M (St A : Type) : Type := St → (Error + A) * St.

Definition ret {St A} (a : A) : M St A := λ s, (inr a, s).

Definition bind {St A B} (m : M St A) (f : A → M St B) : M St B :=
  λ s, match m s with
       | (inl e, s') => (inl e, s')
       | (inr a, s') => f a s'
       end.

Definition fail {St A} (e : Error) : M St A := λ s, (inl e, s).
Definition get {St} : M St St := λ s, (inr s, s).
Definition put {St} (s : St) : M St unit := λ _, (inr tt, s).

Definition guard {St} (ok : bool) (e : Error) : M St unit :=
  if ok then ret tt else fail e.

Definition some_or {St A} (o : option A) (e : Error) : M St A :=
  match o with Some a => ret a | None => fail e end.

Declare Scope ledger_scope.
Delimit Scope ledger_scope with ledger.
Notation "x <- m ;; k" := (bind m (λ x, k))
  (at level 100, m at next level, right associativity) : ledger_scope.
Notation "m ;; k" := (bind m (λ _, k))
  (at level 100, right associativity) : ledger_scope.


(** *** Chain Engine *)

(** Modelled from the spec: the chain engine's hash function [H] (here
    [digest]), the canonical encoding of the hop fields and the genesis
    hash; the specification names them without defining them, so they are
    parameters. *)
Class ChainEngine : Type := mkChainEngine {
  digest : string → Hash;
  canonical_encode : HopFields → string;
  genesis_hash : Hash
}.

Section Chain.
Context `{ChainEngine}.

(** Modelled from the spec: [append(thread_head_hash, hop_fields)] is
    [H(prev_hash ‖ canonical_encode(...))]. *)
Definition append (thread_head_hash : Hash) (fields : HopFields) : Hash :=
  digest (thread_head_hash ++ canonical_encode fields).

Inductive Verification : Type :=
  | Valid
  | Broken (at_sequence : nat).

(** Modelled from the spec: the head hash recomputed over the hops from
    [head]. *)
Definition recompute (head : Hash) (hs : list Hop) : Hash :=
  foldl (λ h hop, append h (hop_fields hop)) head hs.

(** Modelled from the spec: the walk of [verify] over the hops in order;
    [head] is the hash recomputed so far and [at_sequence] the position of
    the next hop. *)
Fixpoint verify_hops (head : Hash) (at_sequence : nat) (hs : list Hop)
    : Verification :=
  match hs with
  | [] => Valid
  | hop :: rest =>
      let recomputed := append head (hop_fields hop) in
      if bool_decide (prev_hash hop = head ∧ hash hop = recomputed) then
        verify_hops recomputed (S at_sequence) rest
      else Broken at_sequence
  end.

(** Modelled from the spec: [verify(thread)] recomputes every hop hash
    from genesis and compares it with the stored hash and [prev_hash]
    link, reporting the first divergent position; the stored [head_hash]
    must equal the recomputation (section 3). *)
Definition verify (t : Thread) : Verification :=
  match verify_hops genesis_hash 0 (hops t) with
  | Valid =>
      if bool_decide (head_hash t = recompute genesis_hash (hops t)) then Valid
      else Broken (length (hops t))
  | Broken at_sequence => Broken at_sequence
  end.

(** *** Thread Ledger *)


Definition is_open (t : Thread) : bool :=
  match status t with open => true | closed => false end.


(** The thread after one more hop. *)
Definition with_hop (t : Thread) (hop : Hop) : Thread :=
  mkThread (id t) (origin_type t) (origin_identity t) (intent t)
    (constraints t) (status t) (outcome t) (hops t ++ [hop]) (hash hop)
    (created_at t) (closed_at t).

(** Modelled from the spec: [DomereService.addHop].  [add_hop] fails with
    [NotFound] for an unknown thread and with [ThreadClosed] unless the
    thread is open; it hashes the hop with the current head as
    [prev_hash], appends it and moves the head. *)
Definition add_hop (now : nat) (thread_id agent_id agent_type
    received_intent : string) (actions : list string)
    : M (gmap string Thread) Hop :=
  (ledger <- get ;;
   t <- some_or (ledger !! thread_id) (ThreadNotFound thread_id) ;;
   guard (is_open t) (ThreadClosed thread_id) ;;
   let fields := mkHopFields (length (hops t)) agent_id agent_type
                   received_intent actions now in
   let hop := mkHop fields (head_hash t) (append (head_hash t) fields) in
   put (<[thread_id := with_hop t hop]> ledger) ;;
   ret hop)%ledger.

Definition closed_with (t : Thread) (o : ThreadOutcome) (now : nat) : Thread :=
  mkThread (id t) (origin_type t) (origin_identity t) (intent t)
    (constraints t) closed (Some o) (hops t) (head_hash t)
    (created_at t) (Some now).

(** Modelled from the spec: [DomereService.closeThread].  [close_thread]
    fails with [NotFound] or [AlreadyClosed]; otherwise the thread becomes
    closed for good. *)
Definition close_thread (now : nat) (thread_id : string) (o : ThreadOutcome)
    : M (gmap string Thread) Thread :=
  (ledger <- get ;;
   t <- some_or (ledger !! thread_id) (ThreadNotFound thread_id) ;;
   guard (is_open t) (AlreadyClosed thread_id) ;;
   put (<[thread_id := closed_with t o now]> ledger) ;;
   ret (closed_with t o now))%ledger.







End Chain.

(** A chain engine for examples: the digest wraps its input, so the whole
    history stays readable in a hash. *)
Definition readable_engine : ChainEngine :=
  mkChainEngine
    (λ s, "h(" ++ s ++ ")")
    (λ f, "|" ++ pretty (sequence_number f) ++ "|" ++ agent_id f ++ "|"
          ++ agent_type f ++ "|" ++ received_intent f ++ "|"
          ++ String.concat "," (actions f) ++ "|" ++ pretty (timestamp f))
    "genesis".

End Ledger.

Module Drift.

(** Modelled from the spec: the scorer behind [DomereService.checkDrift]
    is pluggable behind a fixed contract (section 4.2): the divergence is
    bounded by 0 and 1 and is 0 for identical intents; each constraint is
    judged on its own against the current intent.  The scoring method
    itself is left open. *)
Class Scorer : Type := mkScorer {
  divergence : string → string → Q;
  upholds : string → string → bool;
  divergence_bounded : ∀ a b, (0 <= divergence a b <= 1)%Q;
  divergence_identical : ∀ a, (divergence a a == 0)%Q
}.

(** Modelled from the spec: the verdicts of a drift report. *)
Inductive Verdict : Type := aligned | minor_drift | major_drift.

(** Modelled from the spec: the thresholds between the verdicts are
    configuration of the detector. *)
Record Thresholds : Type := mkThresholds {
  minor_from : Q;
  major_above : Q
}.

(** Modelled from the spec: the documented defaults, below 0.2 aligned,
    above 0.6 major drift. *)
Definition default_thresholds : Thresholds := mkThresholds (1 # 5) (3 # 5).

(** Modelled from the spec: the report that [compare] returns. *)
Record DriftReport : Type := mkDriftReport {
  score : Q;
  violated_constraints : list string;
  verdict : Verdict
}.

(** Modelled from the spec: the verdict is derived from the score by the
    thresholds. *)
Definition verdict_of (cfg : Thresholds) (score : Q) : Verdict :=
  if Qlt_le_dec score (minor_from cfg) then aligned
  else if Qlt_le_dec (major_above cfg) score then major_drift
  else minor_drift.

(** Modelled from the spec:
    [compare(original_intent, current_intent, constraints)]. *)
Definition compare `{Scorer} (cfg : Thresholds)
    (original_intent current_intent : string) (constraints : list string)
    : DriftReport :=
  let score := divergence original_intent current_intent in
  mkDriftReport score
    (filter (λ c, upholds c current_intent = false) constraints)
    (verdict_of cfg score).

(** Modelled from the spec: [DomereService.checkDrift]; the drift
    detector has no dependencies and reads no state. *)
Definition check_drift `{Scorer} {St} (cfg : Thresholds)
    (original_intent current_intent : string) (constraints : list string)
    : Ledger.M St DriftReport :=
  Ledger.ret (compare cfg original_intent current_intent constraints).

(** A scorer that tells identical intents from different ones and judges
    every constraint upheld. *)
#[global, refine] Instance exact_match : Scorer := {
  divergence a b := if String.eqb a b then 0%Q else 1%Q;
  upholds _ _ := true
}.
Proof.
  - intros a b. destruct (String.eqb a b); split; discriminate.
  - intros a. rewrite String.eqb_refl. reflexivity.
Defined.

End Drift.

Module Anchoring.

(** Modelled from the spec: the states of an anchor (section 3). *)
Inductive AnchorStatus : Type :=
  | estimated | prepared | submitted | confirmed | failed.

(** Modelled from the spec: the fields of the anchor of section 3 that
    submission determines; batch, root and inclusion proof belong to the
    batcher. *)
Record Anchor : Type := mkAnchor {
  network : string;
  tx_ref : option string;
  status : AnchorStatus;
  submitted_at : option nat
}.

(** Modelled from the spec: what the adapter's [submit] capability
    answers, a transaction reference or a refusal with its detail. *)
Inductive Submission : Type :=
  | Accepted (tx_ref : string)
  | Refused (detail : string).

(** Modelled from the spec: the Network Adapter's [submit] capability, one
    interface for all networks, selected by the network name; [A] is the
    state of the outside ledgers. *)
Class NetworkAdapter (A : Type) : Type := mkNetworkAdapter {
  submit : string → string → A → Submission * A
}.

(** Modelled from the spec: the world [submit_anchor] acts on, the state
    behind the adapter and the record of the submissions made to it. *)
Record World (A : Type) : Type := mkWorld {
  outside : A;
  submissions : list (string * string)
}.
Arguments mkWorld {A} _ _.
Arguments outside {A} _.
Arguments submissions {A} _.

(** Modelled from the spec: one invocation of the adapter's [submit],
    recorded in the world. *)
Definition adapter_submit `{NetworkAdapter A} (network signed_transaction : string)
    : Ledger.M (World A) Submission :=
  λ w,
    let answer := submit network signed_transaction (outside w) in
    (inr answer.1,
     mkWorld answer.2 (submissions w ++ [(network, signed_transaction)])).

(** Modelled from the spec: [DomereService.submitAnchor]. [submit_anchor]
    forwards the signed transaction to the adapter and fails with a
    submission error when the adapter refuses it; it does not try again. *)
Definition submit_anchor `{NetworkAdapter A} (now : nat)
    (network signed_transaction : string) : Ledger.M (World A) Anchor :=
  Ledger.bind (adapter_submit network signed_transaction) (λ answer,
    match answer with
    | Accepted ref => Ledger.ret (mkAnchor network (Some ref) submitted (Some now))
    | Refused detail => Ledger.fail (Ledger.SubmissionError detail)
    end).

(** An adapter that accepts the transactions whose text starts with
    ["signed:"] and counts them. *)
#[global] Instance checking_adapter : NetworkAdapter nat := {
  submit network signed_transaction accepted :=
    if String.prefix "signed:" signed_transaction
    then (Accepted (network ++ "-tx"), S accepted)
    else (Refused "malformed signature", accepted)
}.

End Anchoring.

(** ** Services *)

Module Services.

(** How a service method settles its promise: it resolves with the JSON
    form of the result or rejects with the thrown failure. *)
Definition settled {St A} (encode : A → Js.Val) (r : (Ledger.Error + A) * St)
    : Outcome * St :=
  (match r.1 with
   | inl e => Rejected (Ledger.thrown e)
   | inr a => Resolved (encode a)
   end, r.2).

Definition strings_json (l : list string) : Js.Val := Js.Arr (Js.Str <$> l).

Definition verdict_name (v : Drift.Verdict) : string :=
  match v with
  | Drift.aligned => "aligned"
  | Drift.minor_drift => "minor_drift"
  | Drift.major_drift => "major_drift"
  end.

Definition report_json (r : Drift.DriftReport) : Js.Val :=
  Js.Obj [("score", Js.Num (Js.NumFinite (Drift.score r)));
          ("violated_constraints", strings_json (Drift.violated_constraints r));
          ("verdict", Js.Str (verdict_name (Drift.verdict r)))].

Definition status_name (s : Anchoring.AnchorStatus) : string :=
  match s with
  | Anchoring.estimated => "estimated"
  | Anchoring.prepared => "prepared"
  | Anchoring.submitted => "submitted"
  | Anchoring.confirmed => "confirmed"
  | Anchoring.failed => "failed"
  end.

Definition anchor_json (a : Anchoring.Anchor) : Js.Val :=
  Js.Obj [("network", Js.Str (Anchoring.network a));
          ("tx_ref", from_option Js.Str Js.Null (Anchoring.tx_ref a));
          ("status", Js.Str (status_name (Anchoring.status a)))].

(** A service whose [submitAnchor] method is [submit_anchor] over the
    network adapter. *)
Definition serves_submit_anchor `{Anchoring.NetworkAdapter A} (now : nat)
    (svc : Service (Anchoring.World A)) : Prop :=
  ∀ network signed_transaction w,
    svc (SubmitAnchor (Js.Str network) (Js.Str signed_transaction)) w
    = settled anchor_json (Anchoring.submit_anchor now network signed_transaction w).

(** A service all of whose methods throw the same failure. *)
Definition throwing {St} (e : Failure) : Service St := λ _ s, (Rejected e, s).

(** A service all of whose methods resolve with the same value. *)
Definition resolving {St} (v : Js.Val) : Service St := λ _ s, (Resolved v, s).

Fixpoint strings_of (items : list Js.Val) : option (list string) :=
  match items with
  | [] => Some []
  | Js.Str s :: rest => cons s <$> strings_of rest
  | _ => None
  end.

(** A service with the drift detector and the anchor submission of the
    specification; its other methods resolve with [undefined]. *)
Definition domere `{Drift.Scorer} `{Anchoring.NetworkAdapter A}
    (cfg : Drift.Thresholds) (now : nat) : Service (Anchoring.World A) :=
  λ c w,
    match c with
    | CheckDrift (Js.Str original) (Js.Str current) (Js.Arr items) =>
        match strings_of items with
        | Some constraints =>
            settled report_json (Drift.check_drift cfg original current constraints w)
        | None => (Rejected (Ledger.thrown (Ledger.Invalid "constraints")), w)
        end
    | SubmitAnchor (Js.Str network) (Js.Str signed_transaction) =>
        settled anchor_json (Anchoring.submit_anchor now network signed_transaction w)
    | _ => (Resolved Js.Undefined, w)
    end.

End Services.

(** ** Vocabulary of the properties *)

(** The status code the specification assigns to an error kind (section
    6): 400 validation, 404 not found, 409 conflict, 500 internal or
    adapter failure.  It names no status for an integrity violation. *)
Definition spec_status_of_kind (k : ErrorKind) : option nat :=
  match k with
  | ValidationError => Some 400
  | NotFound => Some 404
  | Conflict => Some 409
  | AdapterError | InternalError => Some 500
  | IntegrityViolation => None
  end.

(** The names of the error kinds, as a response would spell them. *)
Definition taxonomy : list string :=
  ["ValidationError"; "NotFound"; "Conflict"; "IntegrityViolation";
   "AdapterError"; "InternalError"].

Definition names_error_kind (v : Js.Val) : bool :=
  match v with
  | Js.Str s => bool_decide (s ∈ taxonomy)
  | _ => false
  end.

Definition is_text (v : Js.Val) : bool :=
  match v with Js.Str _ => true | _ => false end.

(** A response body that carries an error kind in one field and a message
    in another. *)
Definition carries_kind_and_message (v : Js.Val) : bool :=
  match v with
  | Js.Obj fields =>
      existsb (λ kind,
        names_error_kind kind.2
        && existsb (λ message,
             negb (String.eqb kind.1 message.1) && is_text message.2) fields)
        fields
  | _ => false
  end.

(** A field of a request body that is absent or the empty string. *)
Definition missing_or_empty (o : gmap string Js.Val) (k : string) : Prop :=
  o !! k = None ∨ o !! k = Some (Js.Str "").

(** A field of a request body that holds a non-empty string. *)
Definition holds_text (o : gmap string Js.Val) (k s : string) : Prop :=
  o !! k = Some (Js.Str s) ∧ s ≠ "".

(** A request with the given JSON body. *)
Definition post (thread_id : string) (fields : list (string * Js.Val)) : Request :=
  mkRequest thread_id (list_to_map fields) ∅.

(** The body of an anchor submission. *)
Definition submit_request (network signed_transaction : string) : Request :=
  post "" [("network", Js.Str network);
           ("signed_transaction", Js.Str signed_transaction)].

(** ** What each route requires *)

Module Required.

(** Where a handler reads a field: [req.body] or [req.query]. *)
Inductive Place : Type := InBody | InQuery.

Definition read (req : Request) (place : Place) (key : string) : Js.Val :=
  match place with
  | InBody => Js.prop (body req) key
  | InQuery => Js.prop (query req) key
  end.

(** The fields named in the [if (!a || !b ...)] guard of each handler;
    the handlers without a guard require nothing. *)
Definition fields (r : Routes.Route) : list (Place * string) :=
  match r with
  | Routes.PostThreads =>
      [(InBody, "origin_type"); (InBody, "origin_identity"); (InBody, "intent")]
  | Routes.PostHops =>
      [(InBody, "agent_id"); (InBody, "agent_type"); (InBody, "received_intent");
       (InBody, "actions")]
  | Routes.PostClose => [(InBody, "outcome")]
  | Routes.PostIntentAnalyze | Routes.PostLanguageDetect
  | Routes.PostLanguageAnalyze | Routes.PostInjectionCheck
  | Routes.PostScan | Routes.PostScanSecrets | Routes.PostScanPII
  | Routes.PostScanInjection | Routes.PostScanExfiltration =>
      [(InBody, "content")]
  | Routes.PostDriftCheck =>
      [(InBody, "original_intent"); (InBody, "current_intent")]
  | Routes.PostIntentCompare => [(InBody, "intent1"); (InBody, "intent2")]
  | Routes.GetAnchorEstimate => [(InQuery, "network")]
  | Routes.PostAnchorPrepare => [(InBody, "thread_id"); (InBody, "network")]
  | Routes.PostAnchorSubmit =>
      [(InBody, "network"); (InBody, "signed_transaction")]
  | Routes.PostAnchorVerify =>
      [(InBody, "network"); (InBody, "thread_id"); (InBody, "merkle_root")]
  | Routes.PostScanCode => [(InBody, "code")]
  | Routes.GetThreads | Routes.GetThreadById | Routes.PostVerify
  | Routes.GetAnchorStatusOf | Routes.GetRulesAll | Routes.PostRules
  | Routes.PutRuleEnable | Routes.PutRuleDisable | Routes.GetStatsAll => []
  end.

(** The fields a handler reads besides those of its guard. *)
Definition optional (r : Routes.Route) : list (Place * string) :=
  match r with
  | Routes.PostThreads => [(InBody, "constraints"); (InBody, "metadata")]
  | Routes.GetThreads =>
      [(InQuery, "status"); (InQuery, "origin_identity"); (InQuery, "limit")]
  | Routes.PostDriftCheck => [(InBody, "constraints")]
  | Routes.PostScan => [(InBody, "scan_types")]
  | Routes.PostScanCode => [(InBody, "language")]
  | _ => []
  end.

(** Some required field of the route is falsy in the request. *)
Definition lacking (r : Routes.Route) (req : Request) : bool :=
  existsb (λ f, Js.falsy (read req f.1 f.2)) (fields r).

End Required.

(** ** The function-calling adapters *)

Module Adapters.

(** The first field named [key] of an object literal. *)
Fixpoint field (fields : list (string * Js.Val)) (key : string) : Js.Val :=
  match fields with
  | [] => Js.Undefined
  | (k, v) :: rest => if String.eqb k key then v else field rest key
  end.

(** The property read [v.key] for a key that no prototype defines: it
    throws a [TypeError] on [undefined] and [null] ([None] here), gives
    the field of an object and [undefined] on every other value. *)
Definition get (v : Js.Val) (key : string) : option Js.Val :=
  match v with
  | Js.Undefined | Js.Null => None
  | Js.Obj fields => Some (field fields key)
  | _ => Some Js.Undefined
  end.

(** [a || b] on values. *)
Definition or_else (a b : Js.Val) : Js.Val := if Js.truthy a then a else b.

(** A method call made by an adapter on one of its service objects: a
    call with the argument list of a route, or one of the calls only the
    adapters make. *)
Inductive ToolCall : Type :=
  | OnService (c : Call)
  | HordRedact (content policy types : Js.Val)
  | HordSandboxExecute (code language options : Js.Val)
  | DomereCreateThreadWith (args : Js.Val).

(** What an adapter function can throw. *)
Inductive Thrown : Type :=
  | ServiceFailure (e : Failure)
  | UnknownFunction (name : string)
  | TypeError.

(** The settlement of the promise an [async] adapter function returns. *)
Inductive Settled : Type :=
  | Fulfilled (v : Js.Val)
  | Failed (t : Thrown).

(** The body of an [async] adapter function. *)
Inductive Async : Type :=
  | Settle (r : Settled)
  | Invoke (c : ToolCall) (k : Outcome → Async).

Definition ToolService (St : Type) : Type := ToolCall → St → Outcome * St.

Record Trace (St : Type) : Type := mkTrace {
  settled : Settled;
  invoked : list ToolCall;
  left : St
}.
Arguments mkTrace {St} _ _ _.
Arguments settled {St} _.
Arguments invoked {St} _.
Arguments left {St} _.

Fixpoint run_async {St : Type} (svc : ToolService St) (p : Async) (s : St)
    : Trace St :=
  match p with
  | Settle r => mkTrace r [] s
  | Invoke c k =>
      let answer := svc c s in
      let rest := run_async svc (k answer.1) answer.2 in
      mkTrace (settled rest) (c :: invoked rest) (left rest)
  end.

(** [return service.method(...)] in an [async] function: the returned
    promise settles as the method's promise does. *)
Definition adopt (o : Outcome) : Async :=
  match o with
  | Resolved result => Settle (Fulfilled result)
  | Rejected error => Settle (Failed (ServiceFailure error))
  end.

Definition returning (c : ToolCall) : Async := Invoke c adopt.

(** Reading [args.a] for the argument list of a call; a [TypeError] ends
    the function before the call is made. *)
Definition with_arg (args : Js.Val) (key : string) (k : Js.Val → Async) : Async :=
  match get args key with
  | Some v => k v
  | None => Settle (Failed TypeError)
  end.

Definition string_schema (description : string) : Js.Val :=
  Js.Obj [("type", Js.Str "string"); ("description", Js.Str description)].

(** [getWeaveFunctions()]: the array of function definitions. *)
Definition getWeaveFunctions : list Js.Val :=
  [ Js.Obj
      [("name", Js.Str "weave_scan_content");
       ("description", Js.Str "Scan content for security threats including secrets, PII, injection attempts, and exfiltration patterns");
       ("parameters", Js.Obj
          [("type", Js.Str "object");
           ("properties", Js.Obj
              [("content", string_schema "Content to scan");
               ("scan_types", Js.Obj
                  [("type", Js.Str "array");
                   ("items", Js.Obj
                      [("type", Js.Str "string");
                       ("enum", Js.Arr [Js.Str "secrets"; Js.Str "pii";
                                        Js.Str "injection"; Js.Str "exfiltration";
                                        Js.Str "code"])]);
                   ("description", Js.Str "Types of scans to run (default: all)")])]);
           ("required", Js.Arr [Js.Str "content"])])];
    Js.Obj
      [("name", Js.Str "weave_scan_secrets");
       ("description", Js.Str "Scan content specifically for secrets and credentials");
       ("parameters", Js.Obj
          [("type", Js.Str "object");
           ("properties", Js.Obj
              [("content", string_schema "Content to scan for secrets")]);
           ("required", Js.Arr [Js.Str "content"])])];
    Js.Obj
      [("name", Js.Str "weave_check_injection");
       ("description", Js.Str "Check content for prompt injection and jailbreak attempts");
       ("parameters", Js.Obj
          [("type", Js.Str "object");
           ("properties", Js.Obj [("content", string_schema "Content to check")]);
           ("required", Js.Arr [Js.Str "content"])])];
    Js.Obj
      [("name", Js.Str "weave_redact");
       ("description", Js.Str "Redact sensitive information (PII, secrets) from content");
       ("parameters", Js.Obj
          [("type", Js.Str "object");
           ("properties", Js.Obj
              [("content", string_schema "Content to redact");
               ("types", Js.Obj
                  [("type", Js.Str "array");
                   ("items", Js.Obj
                      [("type", Js.Str "string");
                       ("enum", Js.Arr [Js.Str "pii"; Js.Str "secrets"])]);
                   ("description", Js.Str "Types of data to redact")])]);
           ("required", Js.Arr [Js.Str "content"])])];
    Js.Obj
      [("name", Js.Str "weave_sandbox_execute");
       ("description", Js.Str "Execute code in a secure sandbox");
       ("parameters", Js.Obj
          [("type", Js.Str "object");
           ("properties", Js.Obj
              [("code", string_schema "Code to execute");
               ("language", Js.Obj
                  [("type", Js.Str "string");
                   ("enum", Js.Arr [Js.Str "javascript"; Js.Str "python"]);
                   ("description", Js.Str "Programming language")]);
               ("timeout", Js.Obj
                  [("type", Js.Str "number");
                   ("description", Js.Str "Timeout in milliseconds (default: 5000)")])]);
           ("required", Js.Arr [Js.Str "code"; Js.Str "language"])])];
    Js.Obj
      [("name", Js.Str "weave_check_drift");
       ("description", Js.Str "Check if an interpretation has drifted from the original intent");
       ("parameters", Js.Obj
          [("type", Js.Str "object");
           ("properties", Js.Obj
              [("original_intent", string_schema "The original intent/request");
               ("current_intent", string_schema "The current interpretation");
               ("constraints", Js.Obj
                  [("type", Js.Str "array");
                   ("items", Js.Obj [("type", Js.Str "string")]);
                   ("description", Js.Str "Constraints that should not be violated")])]);
           ("required", Js.Arr [Js.Str "original_intent"; Js.Str "current_intent"])])];
    Js.Obj
      [("name", Js.Str "weave_create_thread");
       ("description", Js.Str "Create a new thread to track agent actions");
       ("parameters", Js.Obj
          [("type", Js.Str "object");
           ("properties", Js.Obj
              [("origin_type", Js.Obj
                  [("type", Js.Str "string");
                   ("enum", Js.Arr [Js.Str "human"; Js.Str "system";
                                    Js.Str "scheduled"; Js.Str "delegated"])]);
               ("origin_identity", string_schema "Identity of the origin");
               ("intent", string_schema "The intent to track");
               ("constraints", Js.Obj
                  [("type", Js.Str "array");
                   ("items", Js.Obj [("type", Js.Str "string")]);
                   ("description", Js.Str "Constraints")])]);
           ("required", Js.Arr [Js.Str "origin_type"; Js.Str "origin_identity";
                                Js.Str "intent"])])] ].

(** [fn.key] on a value of the array. *)
Definition member (fn : Js.Val) (key : string) : Js.Val :=
  default Js.Undefined (get fn key).

(** [getGeminiFunctionDeclarations()] *)
Definition getGeminiFunctionDeclarations : Js.Val :=
  Js.Obj
    [("functionDeclarations",
      Js.Arr
        ((λ fn, Js.Obj [("name", member fn "name");
                        ("description", member fn "description");
                        ("parameters", member fn "parameters")])
           <$> getWeaveFunctions))].

(** [handleWeaveFunction(name, args)] *)
Definition handleWeaveFunction (name : string) (args : Js.Val) : Async :=
  if String.eqb name "weave_scan_content" then
    with_arg args "content" (λ content,
    with_arg args "scan_types" (λ scan_types,
    returning (OnService (Scan content scan_types))))
  else if String.eqb name "weave_scan_secrets" then
    with_arg args "content" (λ content,
    returning (OnService (ScanSecrets content)))
  else if String.eqb name "weave_check_injection" then
    with_arg args "content" (λ content,
    returning (OnService (CheckInjection content)))
  else if String.eqb name "weave_redact" then
    with_arg args "content" (λ content,
    with_arg args "types" (λ types,
    returning (HordRedact content Js.Undefined types)))
  else if String.eqb name "weave_sandbox_execute" then
    with_arg args "code" (λ code,
    with_arg args "language" (λ language,
    with_arg args "timeout" (λ timeout,
    returning (HordSandboxExecute code language (Js.Obj [("timeout", timeout)])))))
  else if String.eqb name "weave_check_drift" then
    with_arg args "original_intent" (λ original_intent,
    with_arg args "current_intent" (λ current_intent,
    with_arg args "constraints" (λ constraints,
    returning (OnService (CheckDrift original_intent current_intent constraints)))))
  else if String.eqb name "weave_create_thread" then
    returning (DomereCreateThreadWith args)
  else
    Settle (Failed (UnknownFunction name)).

(** The names under which an array of definitions declares functions. *)
Definition declared_names (fns : list Js.Val) : list string :=
  omap (λ fn, match member fn "name" with Js.Str s => Some s | _ => None end) fns.

(** The [required] list of a function definition. *)
Definition required_of (fn : Js.Val) : list string :=
  match member (member fn "parameters") "required" with
  | Js.Arr items =>
      omap (λ item, match item with Js.Str s => Some s | _ => None end) items
  | _ => []
  end.

(** ** The LangChain tools

    [JSON.parse] and [JSON.stringify] are arguments of the tools:
    [parse] gives [None] where [JSON.parse] throws a [SyntaxError]. *)

Section Tools.
Context (parse : string → option Js.Val) (stringify : Js.Val → Js.Val).

(** [return JSON.stringify(await call)] outside any [try]: a rejection
    of the call is the tool's rejection. *)
Definition stringified (o : Outcome) : Async :=
  match o with
  | Resolved result => Settle (Fulfilled (stringify result))
  | Rejected error => Settle (Failed (ServiceFailure error))
  end.

(** The same inside [try]: the [catch] block answers every failure with
    the JSON text of [{ error: message }]. *)
Definition stringified_or (message : string) (o : Outcome) : Async :=
  match o with
  | Resolved result => Settle (Fulfilled (stringify result))
  | Rejected _ => Settle (Fulfilled (stringify (Js.Obj [("error", Js.Str message)])))
  end.

Definition caught (message : string) : Async :=
  Settle (Fulfilled (stringify (Js.Obj [("error", Js.Str message)]))).

(** [WeaveMundTool.call] *)
Definition mund_scan_call (input : string) : Async :=
  Invoke (OnService (Scan (Js.Str input) Js.Undefined)) stringified.

(** [WeaveMundSecretsTool.call] *)
Definition mund_secrets_call (input : string) : Async :=
  Invoke (OnService (ScanSecrets (Js.Str input))) stringified.

(** [WeaveMundInjectionTool.call] *)
Definition mund_injection_call (input : string) : Async :=
  Invoke (OnService (ScanInjection (Js.Str input))) stringified.

(** [WeaveHordRedactTool.call] *)
Definition hord_redact_call (input : string) : Async :=
  Invoke (HordRedact (Js.Str input) Js.Undefined Js.Undefined) stringified.

Definition sandbox_message : string :=
  "Invalid input. Expected JSON with code and language.".

(** [WeaveHordSandboxTool.call] *)
Definition hord_sandbox_call (input : string) : Async :=
  match parse input with
  | None => caught sandbox_message
  | Some parsed =>
      match get parsed "code", get parsed "language" with
      | Some code, Some language =>
          Invoke
            (HordSandboxExecute code (or_else language (Js.Str "javascript"))
               Js.Undefined)
            (stringified_or sandbox_message)
      | _, _ => caught sandbox_message
      end
  end.

Definition drift_message : string :=
  "Invalid input. Expected JSON with original_intent and current_intent.".

(** [WeaveDomereDriftTool.call] *)
Definition domere_drift_call (input : string) : Async :=
  match parse input with
  | None => caught drift_message
  | Some parsed =>
      match get parsed "original_intent", get parsed "current_intent",
            get parsed "constraints" with
      | Some original_intent, Some current_intent, Some constraints =>
          Invoke (OnService (CheckDrift original_intent current_intent constraints))
            (stringified_or drift_message)
      | _, _, _ => caught drift_message
      end
  end.

(** [WeaveDomereInjectionTool.call] *)
Definition domere_injection_call (input : string) : Async :=
  Invoke (OnService (CheckInjection (Js.Str input))) stringified.

(** A tool: its [name] and its [call]; the [description], a text for the
    language model that no code reads, is left out. *)
Record Tool : Type := mkTool {
  tool_name : string;
  tool_call : string → Async
}.

(** [getWeaveTools()] *)
Definition getWeaveTools : list Tool :=
  [mkTool "weave_mund_scan" mund_scan_call;
   mkTool "weave_mund_secrets" mund_secrets_call;
   mkTool "weave_mund_injection" mund_injection_call;
   mkTool "weave_hord_redact" hord_redact_call;
   mkTool "weave_hord_sandbox" hord_sandbox_call;
   mkTool "weave_domere_drift" domere_drift_call;
   mkTool "weave_domere_injection" domere_injection_call].

End Tools.

(** A service object all of whose methods reject with the same failure. *)
Definition rejecting {St} (e : Failure) : ToolService St := λ _ s, (Rejected e, s).

(** A service object all of whose methods resolve with the same value. *)
Definition answering {St} (v : Js.Val) : ToolService St := λ _ s, (Resolved v, s).

(** The double quote character, as a string. *)
Definition dq : string := String (Ascii.ascii_of_nat 34) EmptyString.

(** The JSON text of an object with the one field [code]. *)
Definition code_only : string :=
  "{" ++ dq ++ "code" ++ dq ++ ":" ++ dq ++ "1 + 1" ++ dq ++ "}".

(** A stand-in for [JSON.parse] that reads three texts: the empty object,
    [null] and a sandbox request without a language. *)
Definition three_texts (input : string) : option Js.Val :=
  if String.eqb input "{}" then Some (Js.Obj [])
  else if String.eqb input "null" then Some Js.Null
  else if String.eqb input code_only then Some (Js.Obj [("code", Js.Str "1 + 1")])
  else None.

(** The route that calls the same service method as an adapter function,
    for the functions that have one. *)
Definition counterpart (name : string) : option Routes.Route :=
  if String.eqb name "weave_scan_content" then Some Routes.PostScan
  else if String.eqb name "weave_scan_secrets" then Some Routes.PostScanSecrets
  else if String.eqb name "weave_check_injection" then Some Routes.PostInjectionCheck
  else if String.eqb name "weave_check_drift" then Some Routes.PostDriftCheck
  else if String.eqb name "weave_create_thread" then Some Routes.PostThreads
  else None.

End Adapters.

(** * Properties *)

(** ** The handlers *)

Section Handlers.
Context {St : Type} (svc : Service St).

Lemma run_respond (r : Response) (s : St) :
  run svc (Respond r) s = mkRun r [] s.
Proof. reflexivity. Qed.

Lemma run_try_await (c : Call) (s : St) :
  run svc (Routes.try_await c) s =
  mkRun (match (svc c s).1 with
         | Resolved result => Routes.res_json result
         | Rejected error => Routes.res_error 500 (String_ error)
         end) [c] (svc c s).2.
Proof.
  unfold Routes.try_await. simpl.
  destruct (svc c s) as [[result|error] s']; reflexivity.
Qed.

End Handlers.

(** Every handler either answers 400 at once or awaits exactly one service
    call inside its [try] block. *)
Lemma handler_cases (route : Routes.Route) (req : Request) :
  (∃ message, Routes.handler route req = Respond (Routes.res_error 400 message))
  ∨ (∃ c, Routes.handler route req = Routes.try_await c).
Proof.
  destruct route; simpl;
    unfold Routes.post_threads, Routes.get_threads, Routes.get_thread,
      Routes.post_hops, Routes.post_close, Routes.post_verify,
      Routes.post_intent_analyze, Routes.post_drift_check,
      Routes.post_intent_compare, Routes.post_language_detect,
      Routes.post_language_analyze, Routes.post_injection_check,
      Routes.get_anchor_estimate, Routes.post_anchor_prepare,
      Routes.post_anchor_submit, Routes.post_anchor_verify,
      Routes.get_anchor_status, Routes.post_scan, Routes.post_scan_secrets,
      Routes.post_scan_pii, Routes.post_scan_injection,
      Routes.post_scan_exfiltration, Routes.post_scan_code, Routes.get_rules,
      Routes.post_rules, Routes.put_rule_enable, Routes.put_rule_disable,
      Routes.get_stats, Routes.with_required;
    try (right; eexists; reflexivity);
    match goal with
    | |- context [if ?b then _ else _] =>
        destruct b; [left | right]; eexists; reflexivity
    end.
Qed.

Lemma truthy_text (s : string) : s ≠ "" → Js.falsy (Js.Str s) = false.
Proof.
  intros Hs. unfold Js.falsy. simpl.
  destruct (String.eqb_spec s ""); [contradiction | reflexivity].
Qed.

Lemma falsy_missing_or_empty (o : gmap string Js.Val) (k : string) :
  missing_or_empty o k → Js.falsy (Js.prop o k) = true.
Proof. unfold Js.prop. intros [-> | ->]; reflexivity. Qed.

Lemma prop_holds_text (o : gmap string Js.Val) (k s : string) :
  holds_text o k s → Js.prop o k = Js.Str s ∧ Js.falsy (Js.prop o k) = false.
Proof.
  intros [Hk Hs]. unfold Js.prop. rewrite Hk. simpl.
  split; [reflexivity | by apply truthy_text].
Qed.

(** ** Status codes and error kinds *)

(** C1, as stated, fails: a failure of kind NotFound thrown by the service
    behind GET /threads/:id, and one of kind Conflict thrown behind
    POST /threads/:id/close, are both answered with status 500, where the
    specification's table has 404 and 409. *)
Lemma thrown_kinds_answered_500 :
  let not_found := Ledger.thrown (Ledger.ThreadNotFound "t-unknown") in
  let conflict := Ledger.thrown (Ledger.AlreadyClosed "t-1") in
  let got := run (Services.throwing not_found)
               (Routes.handler Routes.GetThreadById (post "t-unknown" [])) tt in
  let closed := run (Services.throwing conflict)
                  (Routes.handler Routes.PostClose
                     (post "t-1" [("outcome", Js.Str "success")])) tt in
  (failure_kind not_found = NotFound
   ∧ calls got = [GetThread "t-unknown"]
   ∧ status (response got) = 500
   ∧ Some (status (response got)) ≠ spec_status_of_kind NotFound)
  ∧ (failure_kind conflict = Conflict
     ∧ calls closed = [CloseThread "t-1" (Js.Str "success")]
     ∧ status (response closed) = 500
     ∧ Some (status (response closed)) ≠ spec_status_of_kind Conflict).
Proof. vm_compute. repeat split; discriminate. Qed.

(** C1, amended: a handler answers 400 exactly when it rejects the request
    at the boundary, without a service call; otherwise it makes one service
    call and answers 200 with the result when the call resolves and 500
    with the text of the thrown value when it rejects, whatever the kind of
    the failure. *)
Theorem status_by_outcome {St : Type} (svc : Service St)
    (route : Routes.Route) (req : Request) (s : St) :
  let r := run svc (Routes.handler route req) s in
  match calls r with
  | [] => status (response r) = 400 ∧ final r = s
  | [c] =>
      final r = (svc c s).2
      ∧ match (svc c s).1 with
        | Resolved result => response r = Routes.res_json result
        | Rejected error =>
            response r = Routes.res_error 500 (String_ error)
            ∧ status (response r) = 500
        end
  | _ => False
  end.
Proof.
  intros r. subst r.
  destruct (handler_cases route req) as [[message ->] | [c ->]].
  - rewrite run_respond. simpl. done.
  - rewrite run_try_await. simpl.
    destruct (svc c s) as [[result|error] s']; simpl; done.
Qed.

(** ** Error bodies *)

(** C4, as stated, fails: the 400 answer of POST /threads to a body without
    the required fields and the 500 answer of POST /mund/scan to a failing
    scan are error responses whose body has the single field [error]; no
    field names an error kind. *)
Lemma error_body_without_kind :
  let rejected := run (St := unit) (Services.resolving Js.Null)
                    (Routes.handler Routes.PostThreads (post "" [])) tt in
  let failed := run (Services.throwing (mkFailure InternalError "Error: scan failed"))
                  (Routes.handler Routes.PostScan
                     (post "" [("content", Js.Str "text")])) tt in
  (response rejected
     = mkResponse 400
         (Js.Obj [("error",
                   Js.Str "origin_type, origin_identity, and intent are required")])
   ∧ carries_kind_and_message (json (response rejected)) = false)
  ∧ (response failed
       = mkResponse 500 (Js.Obj [("error", Js.Str "Error: scan failed")])
     ∧ carries_kind_and_message (json (response failed)) = false).
Proof. vm_compute. done. Qed.

(** C4, amended: every error response of a handler has a body with exactly
    one field, [error], holding a human-readable message; it carries no
    separate machine-readable error kind. *)
Theorem error_body_is_message {St : Type} (svc : Service St)
    (route : Routes.Route) (req : Request) (s : St) :
  let r := run svc (Routes.handler route req) s in
  status (response r) ≠ 200 →
  ∃ message,
    json (response r) = Js.Obj [("error", Js.Str message)]
    ∧ carries_kind_and_message (json (response r)) = false.
Proof.
  intros r Herr. subst r.
  assert (Hone : ∀ message,
    carries_kind_and_message (Js.Obj [("error", Js.Str message)]) = false).
  { intros message. unfold carries_kind_and_message, names_error_kind.
    cbn [existsb fst snd]. destruct (bool_decide (message ∈ taxonomy)); reflexivity. }
  destruct (handler_cases route req) as [[message Hh] | [c Hh]];
    rewrite Hh in Herr |- *.
  - rewrite run_respond. simpl.
    eexists; split; [reflexivity | apply Hone].
  - rewrite run_try_await in Herr |- *. simpl in *.
    destruct (svc c s) as [[result|error] s']; simpl in *.
    + contradiction.
    + eexists; split; [reflexivity | apply Hone].
Qed.

Lemma error_body_is_message_witness :
  let r := run (Services.throwing (Ledger.thrown (Ledger.ThreadNotFound "t-9")))
             (Routes.handler Routes.PostVerify (post "t-9" [])) tt in
  status (response r) ≠ 200
  ∧ ∃ message,
      json (response r) = Js.Obj [("error", Js.Str message)]
      ∧ carries_kind_and_message (json (response r)) = false.
Proof.
  split; [vm_compute; discriminate |].
  apply (error_body_is_message
           (Services.throwing (Ledger.thrown (Ledger.ThreadNotFound "t-9")))
           Routes.PostVerify (post "t-9" []) tt).
  vm_compute. discriminate.
Defined.

(** ** Creating a thread *)

(** C3: POST /threads answers 400 and does not call [createThread] when
    [origin_type], [origin_identity] or [intent] is absent or the empty
    string; when the three are non-empty strings it calls [createThread]
    once, with the fields of the body, and answers with its settlement. *)
Theorem create_thread_validation {St : Type} (svc : Service St)
    (req : Request) (s : St) :
  let r := run svc (Routes.post_threads req) s in
  (missing_or_empty (body req) "origin_type"
   ∨ missing_or_empty (body req) "origin_identity"
   ∨ missing_or_empty (body req) "intent" →
   status (response r) = 400 ∧ calls r = [] ∧ final r = s)
  ∧ (∀ origin_type origin_identity intent,
       holds_text (body req) "origin_type" origin_type →
       holds_text (body req) "origin_identity" origin_identity →
       holds_text (body req) "intent" intent →
       let c := CreateThread (Js.Str origin_type) (Js.Str origin_identity)
                  (Js.Str intent) (Js.prop (body req) "constraints")
                  (Js.prop (body req) "metadata") in
       calls r = [c]
       ∧ final r = (svc c s).2
       ∧ response r = match (svc c s).1 with
                      | Resolved result => Routes.res_json result
                      | Rejected error => Routes.res_error 500 (String_ error)
                      end).
Proof.
  intros r. subst r. unfold Routes.post_threads. split.
  - intros Hmissing.
    assert (Js.falsy (Js.prop (body req) "origin_type")
            || Js.falsy (Js.prop (body req) "origin_identity")
            || Js.falsy (Js.prop (body req) "intent") = true) as ->.
    { destruct Hmissing as [Hm | [Hm | Hm]];
        apply falsy_missing_or_empty in Hm; rewrite Hm;
        by rewrite ?orb_true_r. }
    rewrite run_respond. done.
  - intros origin_type origin_identity intent Ht Hi Hn.
    apply prop_holds_text in Ht as [Ht Ht'], Hi as [Hi Hi'], Hn as [Hn Hn'].
    rewrite Ht', Hi', Hn'. cbn [orb].
    rewrite Ht, Hi, Hn. rewrite run_try_await. done.
Qed.

Lemma create_thread_validation_witness :
  let empty_intent :=
    post "" [("origin_type", Js.Str "human"); ("origin_identity", Js.Str "alice");
             ("intent", Js.Str "")] in
  let complete :=
    post "" [("origin_type", Js.Str "human"); ("origin_identity", Js.Str "alice");
             ("intent", Js.Str "summarize the document")] in
  let svc : Service unit := Services.resolving (Js.Str "thread0") in
  (missing_or_empty (body empty_intent) "intent"
   ∧ status (response (run svc (Routes.post_threads empty_intent) tt)) = 400
   ∧ calls (run svc (Routes.post_threads empty_intent) tt) = [])
  ∧ (holds_text (body complete) "intent" "summarize the document"
     ∧ calls (run svc (Routes.post_threads complete) tt)
       = [CreateThread (Js.Str "human") (Js.Str "alice")
            (Js.Str "summarize the document") Js.Undefined Js.Undefined]).
Proof.
  intros empty_intent complete svc. split.
  - assert (Hm : missing_or_empty (body empty_intent) "intent")
      by (right; vm_compute; reflexivity).
    split; [exact Hm |].
    destruct (create_thread_validation svc empty_intent tt) as [Hreject _].
    destruct (Hreject (or_intror (or_intror Hm))) as (H400 & Hcalls & _).
    split; assumption.
  - assert (Ht : holds_text (body complete) "origin_type" "human")
      by (split; [vm_compute; reflexivity | discriminate]).
    assert (Hi : holds_text (body complete) "origin_identity" "alice")
      by (split; [vm_compute; reflexivity | discriminate]).
    assert (Hn : holds_text (body complete) "intent" "summarize the document")
      by (split; [vm_compute; reflexivity | discriminate]).
    split; [exact Hn |].
    destruct (create_thread_validation svc complete tt) as [_ Hforward].
    destruct (Hforward _ _ _ Ht Hi Hn) as (Hcalls & _).
    exact Hcalls.
Defined.

(** ** Appending a hop *)

(** C9, as stated, fails: a request whose [actions] is the empty array
    passes the check, since an array is truthy; POST /threads/:id/hops
    calls [addHop] and answers with its result. *)
Lemma empty_actions_forwarded :
  let req := post "t-1" [("agent_id", Js.Str "agent-7"); ("agent_type", Js.Str "llm");
                         ("received_intent", Js.Str "summarize the document");
                         ("actions", Js.Arr [])] in
  let r := run (St := unit) (Services.resolving (Js.Str "hop")) (Routes.post_hops req) tt in
  calls r = [AddHop "t-1" (Js.Str "agent-7") (Js.Str "llm")
               (Js.Str "summarize the document") (Js.Arr [])]
  ∧ status (response r) = 200
  ∧ status (response r) ≠ 400.
Proof. vm_compute. repeat split; discriminate. Qed.

(** C9, amended: POST /threads/:id/hops answers 400 without calling
    [addHop] when [agent_id], [agent_type], [received_intent] or [actions]
    is absent or falsy (null, false, 0, NaN, the empty string); when the
    first three are non-empty strings and [actions] is an array, empty or
    not, it calls [addHop] once with these values. *)
Theorem add_hop_validation {St : Type} (svc : Service St)
    (req : Request) (s : St) :
  let r := run svc (Routes.post_hops req) s in
  (Js.falsy (Js.prop (body req) "agent_id") = true
   ∨ Js.falsy (Js.prop (body req) "agent_type") = true
   ∨ Js.falsy (Js.prop (body req) "received_intent") = true
   ∨ Js.falsy (Js.prop (body req) "actions") = true →
   status (response r) = 400 ∧ calls r = [] ∧ final r = s)
  ∧ (∀ agent_id agent_type received_intent actions,
       holds_text (body req) "agent_id" agent_id →
       holds_text (body req) "agent_type" agent_type →
       holds_text (body req) "received_intent" received_intent →
       body req !! "actions" = Some (Js.Arr actions) →
       calls r = [AddHop (params_id req) (Js.Str agent_id) (Js.Str agent_type)
                    (Js.Str received_intent) (Js.Arr actions)]).
Proof.
  intros r. subst r. unfold Routes.post_hops. split.
  - intros Hfalsy.
    assert (Js.falsy (Js.prop (body req) "agent_id")
            || Js.falsy (Js.prop (body req) "agent_type")
            || Js.falsy (Js.prop (body req) "received_intent")
            || Js.falsy (Js.prop (body req) "actions") = true) as ->.
    { destruct Hfalsy as [Hf | [Hf | [Hf | Hf]]]; rewrite Hf;
        by rewrite ?orb_true_r. }
    rewrite run_respond. done.
  - intros agent_id agent_type received_intent actions Ha Ht Hr Hacts.
    apply prop_holds_text in Ha as [Ha Ha'], Ht as [Ht Ht'], Hr as [Hr Hr'].
    assert (Hacts' : Js.prop (body req) "actions" = Js.Arr actions)
      by (unfold Js.prop; by rewrite Hacts).
    rewrite Ha', Ht', Hr', Hacts'. cbn [orb Js.falsy Js.truthy negb].
    rewrite Ha, Ht, Hr. rewrite run_try_await. done.
Qed.

Lemma add_hop_validation_witness :
  let no_actions :=
    post "t-1" [("agent_id", Js.Str "agent-7"); ("agent_type", Js.Str "llm");
                ("received_intent", Js.Str "summarize")] in
  let empty_actions :=
    post "t-1" [("agent_id", Js.Str "agent-7"); ("agent_type", Js.Str "llm");
                ("received_intent", Js.Str "summarize"); ("actions", Js.Arr [])] in
  let svc : Service unit := Services.resolving (Js.Str "hop") in
  (Js.falsy (Js.prop (body no_actions) "actions") = true
   ∧ status (response (run svc (Routes.post_hops no_actions) tt)) = 400
   ∧ calls (run svc (Routes.post_hops no_actions) tt) = [])
  ∧ (body empty_actions !! "actions" = Some (Js.Arr [])
     ∧ calls (run svc (Routes.post_hops empty_actions) tt)
       = [AddHop "t-1" (Js.Str "agent-7") (Js.Str "llm") (Js.Str "summarize")
            (Js.Arr [])]).
Proof.
  intros no_actions empty_actions svc. split.
  - assert (Hf : Js.falsy (Js.prop (body no_actions) "actions") = true)
      by (vm_compute; reflexivity).
    split; [exact Hf |].
    destruct (add_hop_validation svc no_actions tt) as [Hreject _].
    destruct (Hreject (or_intror (or_intror (or_intror Hf)))) as (H400 & Hcalls & _).
    split; assumption.
  - assert (Hacts : body empty_actions !! "actions" = Some (Js.Arr []))
      by (vm_compute; reflexivity).
    split; [exact Hacts |].
    destruct (add_hop_validation svc empty_actions tt) as [_ Hforward].
    apply (Hforward "agent-7" "llm" "summarize" []);
      solve [ split; [vm_compute; reflexivity | discriminate] | exact Hacts ].
Defined.

(** ** Closing a thread *)

(** C10: POST /threads/:id/close hands every non-empty [outcome] string to
    [closeThread] as it is, whether or not it is one of success, failure
    and abandoned, and answers with the settlement of that call; it does
    not answer 400. *)
Theorem close_forwards_outcome {St : Type} (svc : Service St)
    (req : Request) (s : St) (outcome : string) :
  holds_text (body req) "outcome" outcome →
  let r := run svc (Routes.post_close req) s in
  let c := CloseThread (params_id req) (Js.Str outcome) in
  calls r = [c]
  ∧ final r = (svc c s).2
  ∧ response r = match (svc c s).1 with
                 | Resolved result => Routes.res_json result
                 | Rejected error => Routes.res_error 500 (String_ error)
                 end
  ∧ status (response r) ≠ 400.
Proof.
  intros Ho. apply prop_holds_text in Ho as [Ho Ho'].
  unfold Routes.post_close. rewrite Ho'. rewrite Ho.
  rewrite run_try_await. cbn [calls final response].
  repeat split. destruct (svc _ s) as [[result|error] s']; simpl; discriminate.
Qed.

Lemma close_forwards_outcome_witness :
  let req := post "t-1" [("outcome", Js.Str "postponed")] in
  let r := run (St := unit) (Services.resolving Js.Null) (Routes.post_close req) tt in
  holds_text (body req) "outcome" "postponed"
  ∧ calls r = [CloseThread "t-1" (Js.Str "postponed")]
  ∧ status (response r) ≠ 400.
Proof.
  intros req r.
  assert (Ho : holds_text (body req) "outcome" "postponed")
    by (split; [vm_compute; reflexivity | discriminate]).
  split; [exact Ho |].
  destruct (close_forwards_outcome (Services.resolving Js.Null) req tt "postponed" Ho)
    as (Hcalls & _ & _ & Hstatus).
  split; assumption.
Defined.

(** ** The API-key middleware *)

Lemma strip_prefix_app (pattern rest : string) :
  Middleware.strip_prefix pattern (pattern ++ rest) = Some rest.
Proof.
  induction pattern as [|p pattern IH]; simpl.
  - by destruct rest.
  - by rewrite Ascii.eqb_refl.
Qed.

Lemma replace_prefix (pattern replacement rest : string) :
  Middleware.replace pattern replacement (pattern ++ rest) = replacement ++ rest.
Proof.
  destruct (pattern ++ rest) as [|c s] eqn:E; simpl;
    rewrite <- E, strip_prefix_app; reflexivity.
Qed.

Lemma truthy_key (key : string) : key ≠ "" → Middleware.truthy (Some key) = true.
Proof.
  intros Hk. simpl. destruct (String.eqb_spec key ""); [contradiction | reflexivity].
Qed.

(** With [WEAVE_API_KEY] unset, a truthy key never equals the environment
    value. *)
Lemma unset_key_rejects (headers : gmap string string) :
  Middleware.apiKeyAuth None headers =
  if Middleware.truthy (Middleware.presented_key headers)
  then Middleware.Answered (Routes.res_error 403 "Invalid API key")
  else Middleware.Answered (Routes.res_error 401 "API key required").
Proof.
  unfold Middleware.apiKeyAuth.
  destruct (Middleware.presented_key headers) as [key|] eqn:E;
    cbn [Middleware.truthy].
  - destruct (String.eqb key ""); cbn [negb]; [reflexivity |].
    rewrite bool_decide_eq_false_2; [reflexivity | discriminate].
  - reflexivity.
Qed.

(** C8: with [WEAVE_API_KEY] unset the middleware never calls [next()]: a
    request without [x-api-key] and [authorization] headers is answered
    401, and a request that presents a non-empty key in [x-api-key] or as
    [authorization: Bearer <key>] is answered 403. *)
Theorem unset_key_authenticates_nothing (headers : gmap string string) :
  Middleware.apiKeyAuth None headers ≠ Middleware.Next
  ∧ (headers !! "x-api-key" = None → headers !! "authorization" = None →
     Middleware.apiKeyAuth None headers
     = Middleware.Answered (Routes.res_error 401 "API key required"))
  ∧ (∀ key, key ≠ "" →
       headers !! "x-api-key" = Some key
       ∨ headers !! "authorization" = Some ("Bearer " ++ key) →
       Middleware.apiKeyAuth None headers
       = Middleware.Answered (Routes.res_error 403 "Invalid API key")).
Proof.
  rewrite unset_key_rejects. split; [| split].
  - destruct (Middleware.truthy _); discriminate.
  - intros Hx Ha. unfold Middleware.presented_key. rewrite Hx, Ha. reflexivity.
  - intros key Hkey Hpresented.
    assert (Middleware.truthy (Middleware.presented_key headers) = true) as ->;
      [| reflexivity].
    unfold Middleware.presented_key.
    destruct (Middleware.truthy (headers !! "x-api-key")) eqn:Ex; [exact Ex |].
    destruct Hpresented as [Hx | Ha].
    + rewrite Hx, truthy_key in Ex by done. discriminate.
    + rewrite Ha. cbn [fmap option_fmap option_map].
      rewrite (replace_prefix "Bearer " "" key). by apply truthy_key.
Qed.

Lemma unset_key_authenticates_nothing_witness :
  let anonymous : gmap string string := ∅ in
  let with_header : gmap string string := {[ "x-api-key" := "secret" ]} in
  let with_bearer : gmap string string := {[ "authorization" := "Bearer secret" ]} in
  Middleware.apiKeyAuth None anonymous
    = Middleware.Answered (Routes.res_error 401 "API key required")
  ∧ Middleware.apiKeyAuth None with_header
    = Middleware.Answered (Routes.res_error 403 "Invalid API key")
  ∧ Middleware.apiKeyAuth None with_bearer
    = Middleware.Answered (Routes.res_error 403 "Invalid API key").
Proof.
  intros anonymous with_header with_bearer. split; [| split].
  - apply (unset_key_authenticates_nothing anonymous); reflexivity.
  - apply (unset_key_authenticates_nothing with_header) with (key := "secret").
    + discriminate.
    + left. vm_compute. reflexivity.
  - apply (unset_key_authenticates_nothing with_bearer) with (key := "secret").
    + discriminate.
    + right. vm_compute. reflexivity.
Defined.

(** ** Services that implement the specified operations *)

Lemma domere_serves_submit_anchor `{Drift.Scorer} `{Anchoring.NetworkAdapter A}
    (cfg : Drift.Thresholds) (now : nat) :
  Services.serves_submit_anchor now (Services.domere (A:=A) cfg now).
Proof. intros network signed_transaction w. reflexivity. Qed.

Lemma submit_request_body (network signed_transaction : string) :
  Js.prop (body (submit_request network signed_transaction)) "network"
    = Js.Str network
  ∧ Js.prop (body (submit_request network signed_transaction)) "signed_transaction"
    = Js.Str signed_transaction.
Proof. repeat split. Qed.

(** ** Anchor submission *)

(** C5: POST /anchor/submit never calls the service twice, whatever the
    request and whatever the call does.  For a request with a non-empty
    network and signed transaction it calls [submitAnchor] exactly once
    and answers a rejection with status 500 and the text of the failure;
    when [submitAnchor] is the specified [submit_anchor], the network
    adapter's [submit] is invoked exactly once for the request, and a
    transaction the adapter refuses is answered with the adapter's detail
    as an adapter error. *)
Theorem submit_forwards_once (req : Request) :
  (∀ (St : Type) (svc : Service St) (s : St),
     (length (calls (run svc (Routes.post_anchor_submit req) s)) ≤ 1)%nat)
  ∧ (∀ network signed_transaction,
       holds_text (body req) "network" network →
       holds_text (body req) "signed_transaction" signed_transaction →
       let c := SubmitAnchor (Js.Str network) (Js.Str signed_transaction) in
       (∀ (St : Type) (svc : Service St) (s : St),
          calls (run svc (Routes.post_anchor_submit req) s) = [c]
          ∧ ∀ error, (svc c s).1 = Rejected error →
              response (run svc (Routes.post_anchor_submit req) s)
              = Routes.res_error 500 (String_ error))
       ∧ (∀ (A : Type) (adapter : Anchoring.NetworkAdapter A) (now : nat)
            (svc : Service (Anchoring.World A)) (w : Anchoring.World A),
            Services.serves_submit_anchor now svc →
            let r := run svc (Routes.post_anchor_submit req) w in
            let answer :=
              Anchoring.submit network signed_transaction (Anchoring.outside w) in
            Anchoring.submissions (final r)
              = (Anchoring.submissions w ++ [(network, signed_transaction)])%list
            ∧ Anchoring.outside (final r) = answer.2
            ∧ ∀ detail, answer.1 = Anchoring.Refused detail →
                response r = Routes.res_error 500 ("AdapterError: " ++ detail))).
Proof.
  split.
  - intros St svc s.
    destruct (handler_cases Routes.PostAnchorSubmit req) as [[message Hh] | [c Hh]];
      cbn [Routes.handler] in Hh; rewrite Hh.
    + rewrite run_respond. cbn. lia.
    + rewrite run_try_await. cbn. lia.
  - intros network signed_transaction Hn Ht.
    apply prop_holds_text in Hn as [Hn Hn'], Ht as [Ht Ht'].
    unfold Routes.post_anchor_submit. rewrite Hn', Ht'. cbn [orb].
    rewrite Hn, Ht. split.
    + intros St svc s. rewrite run_try_await. cbn [calls response].
      split; [reflexivity |]. by intros error ->.
    + intros A adapter now svc w Hserves.
      rewrite run_try_await, !Hserves.
      unfold Services.settled, Anchoring.submit_anchor, Anchoring.adapter_submit,
        Ledger.bind.
      destruct (Anchoring.submit network signed_transaction (Anchoring.outside w))
        as [[ref|refusal] a'] eqn:E; cbn.
      * split; [reflexivity | split; [reflexivity |]]. intros detail [=].
      * split; [reflexivity | split; [reflexivity |]]. by intros detail [= ->].
Qed.

Lemma submit_forwards_once_witness :
  let req := submit_request "solana" "unsigned bytes" in
  let svc := Services.domere (A := nat) Drift.default_thresholds 0 in
  let r := run svc (Routes.post_anchor_submit req) (Anchoring.mkWorld 0 []) in
  (holds_text (body req) "network" "solana"
   ∧ holds_text (body req) "signed_transaction" "unsigned bytes")
  ∧ Anchoring.submissions (final r) = [("solana", "unsigned bytes")]
  ∧ response r = Routes.res_error 500 "AdapterError: malformed signature".
Proof.
  intros req svc r.
  assert (Hn : holds_text (body req) "network" "solana")
    by (split; [vm_compute; reflexivity | discriminate]).
  assert (Ht : holds_text (body req) "signed_transaction" "unsigned bytes")
    by (split; [vm_compute; reflexivity | discriminate]).
  split; [by split |].
  destruct (submit_forwards_once req) as [_ Htyped].
  destruct (Htyped "solana" "unsigned bytes" Hn Ht) as [_ Hadapter].
  destruct (Hadapter nat Anchoring.checking_adapter 0 svc (Anchoring.mkWorld 0 [])
              (domere_serves_submit_anchor Drift.default_thresholds 0))
    as (Hlog & _ & Hrefused).
  split; [exact Hlog |].
  apply Hrefused. reflexivity.
Defined.

(** ** The hash chain of a thread *)

Section ChainProperties.
Context `{Ledger.ChainEngine}.












End ChainProperties.




(** ** The models at work *)

(** A stored hop altered after the fact is found at its own position. *)
Example tampered_hop_is_found :
  let engine := Ledger.readable_engine in
  let first := Ledger.mkHopFields 0 "agent-7" "llm" "summarize" ["read"] 8 in
  let second := Ledger.mkHopFields 1 "agent-8" "llm" "summarize" ["write"] 9 in
  let forged := Ledger.mkHopFields 1 "agent-8" "llm" "email it" ["write"] 9 in
  let h1 := @Ledger.append engine "genesis" first in
  let h2 := @Ledger.append engine h1 second in
  let thread hops :=
    Ledger.mkThread "thread" Ledger.human "alice" "summarize" [] Ledger.open
      None hops h2 7 None in
  @Ledger.verify engine
    (thread [Ledger.mkHop first "genesis" h1; Ledger.mkHop second h1 h2])
  = Ledger.Valid
  ∧ @Ledger.verify engine
      (thread [Ledger.mkHop first "genesis" h1; Ledger.mkHop forged h1 h2])
    = Ledger.Broken 1.
Proof. vm_compute. done. Qed.

(** A closed thread takes no more hops and cannot be closed again. *)
Example closed_thread_conflicts :
  let engine := Ledger.readable_engine in
  let t :=
    Ledger.mkThread "thread" Ledger.human "alice" "summarize" [] Ledger.closed
      (Some Ledger.success) [] "genesis" 7 (Some 9) in
  let ledger : gmap string Ledger.Thread := {[ "thread" := t ]} in
  (@Ledger.add_hop engine 10 "thread" "agent-7" "llm" "summarize" ["read"] ledger).1
    = inl (Ledger.ThreadClosed "thread")
  ∧ (Ledger.close_thread 10 "thread" Ledger.failure ledger).1
    = inl (Ledger.AlreadyClosed "thread")
  ∧ Ledger.kind_of (Ledger.ThreadClosed "thread") = Conflict.
Proof. vm_compute. done. Qed.

(** With the exact-match scorer two different intents have divergence 1,
    above the default threshold for major drift. *)
Example differing_intents_major_drift :
  Drift.verdict
    (Drift.compare Drift.default_thresholds "summarize the document"
       "summarize and then email it to external@example.com"
       ["never send data externally"])
  = Drift.major_drift.
Proof. reflexivity. Qed.

Example falsy_values :
  Js.falsy Js.Undefined = true
  ∧ Js.falsy (Js.Str "") = true
  ∧ Js.falsy (Js.Num (Js.NumFinite 0)) = true
  ∧ Js.falsy (Js.Arr []) = false
  ∧ Js.falsy (Js.Obj []) = false.
Proof. repeat split. Qed.

Example bearer_prefix_removed :
  Middleware.replace "Bearer " "" "Bearer secret" = "secret"
  ∧ Middleware.replace "Bearer " "" "Basic secret" = "Basic secret"
  ∧ Middleware.apiKeyAuth (Some "secret") {[ "authorization" := "Bearer secret" ]}
    = Middleware.Next.
Proof. vm_compute. done. Qed.

(** * Further properties of the boundary *)

(** ** The guards of the routes *)

(** Unfolds the handler of a route and decides the falsy tests of its
    guard. *)
Ltac guard_cases route :=
  destruct route;
  cbn [Routes.handler Required.lacking Required.fields existsb Required.read
       fst snd] in *;
  unfold Routes.post_threads, Routes.get_threads, Routes.get_thread,
    Routes.post_hops, Routes.post_close, Routes.post_verify,
    Routes.post_intent_analyze, Routes.post_drift_check,
    Routes.post_intent_compare, Routes.post_language_detect,
    Routes.post_language_analyze, Routes.post_injection_check,
    Routes.get_anchor_estimate, Routes.post_anchor_prepare,
    Routes.post_anchor_submit, Routes.post_anchor_verify,
    Routes.get_anchor_status, Routes.post_scan, Routes.post_scan_secrets,
    Routes.post_scan_pii, Routes.post_scan_injection,
    Routes.post_scan_exfiltration, Routes.post_scan_code, Routes.get_rules,
    Routes.post_rules, Routes.put_rule_enable, Routes.put_rule_disable,
    Routes.get_stats, Routes.with_required;
  cbn zeta;
  repeat match goal with
         | |- context [Js.falsy ?v] => destruct (Js.falsy v)
         end;
  cbn [orb] in *.

(** A request that lacks a required field is answered at the boundary. *)
Lemma lacking_is_rejected {St : Type} (svc : Service St)
    (route : Routes.Route) (req : Request) (s : St) :
  Required.lacking route req = true →
  calls (run svc (Routes.handler route req) s) = []
  ∧ status (response (run svc (Routes.handler route req) s)) = 400.
Proof.
  revert s. guard_cases route; intros s Hlacking;
    first [ discriminate Hlacking | rewrite run_respond; done ].
Qed.

(** Every route answers 400, without a service call and without touching
    the service, exactly when one of the fields its guard names is falsy
    in the request; otherwise it makes exactly one service call and
    answers 200 or 500.  Fields outside the guard (constraints, metadata,
    scan_types, language, the whole body of POST /mund/rules) are never a
    reason to reject. *)
Theorem guard_matches_required_fields {St : Type} (svc : Service St)
    (route : Routes.Route) (req : Request) (s : St) :
  let r := run svc (Routes.handler route req) s in
  if Required.lacking route req then
    calls r = [] ∧ status (response r) = 400 ∧ final r = s
  else
    length (calls r) = 1
    ∧ (status (response r) = 200 ∨ status (response r) = 500).
Proof.
  intros r. subst r.
  assert (Hsettled : ∀ c,
    length (calls (run svc (Routes.try_await c) s)) = 1
    ∧ (status (response (run svc (Routes.try_await c) s)) = 200
       ∨ status (response (run svc (Routes.try_await c) s)) = 500)).
  { intros c. rewrite run_try_await. cbn [calls response].
    split; [reflexivity |]. destruct (svc c s).1; [left | right]; reflexivity. }
  guard_cases route; first [ apply Hsettled | rewrite run_respond; done ].
Qed.

(** ** The API key that is accepted *)

Lemma replace_absent (pattern replacement s : string) :
  Middleware.occurs pattern s = false →
  Middleware.replace pattern replacement s = s.
Proof.
  induction s as [|c s IH]; cbn [Middleware.occurs Middleware.replace];
    destruct (Middleware.strip_prefix pattern _); try discriminate.
  - reflexivity.
  - intros Habsent. by rewrite IH.
Qed.

(** With a key configured, the middleware passes a request on exactly when
    the key it presents is the configured key and is not empty; an empty
    configured key therefore admits nobody. *)
Theorem key_accepted_iff (key : string) (headers : gmap string string) :
  Middleware.apiKeyAuth (Some key) headers = Middleware.Next
  ↔ Middleware.presented_key headers = Some key ∧ key ≠ "".
Proof.
  unfold Middleware.apiKeyAuth.
  destruct (Middleware.presented_key headers) as [presented|];
    cbn [Middleware.truthy].
  - destruct (String.eqb_spec presented "") as [-> | Hne]; cbn [negb].
    + split; [discriminate |]. intros [[= <-] Hkey]. contradiction.
    + case_bool_decide as Heq; cbn [negb].
      * split; [| reflexivity]. intros _. split; [exact Heq |].
        by injection Heq as <-.
      * split; [discriminate |]. intros [Hsame _]. contradiction.
  - split; [discriminate |]. intros [[=] _].
Qed.

Lemma key_accepted_iff_witness :
  let headers : gmap string string := {[ "x-api-key" := "secret" ]} in
  (Middleware.presented_key headers = Some "secret" ∧ "secret" ≠ "")
  ∧ Middleware.apiKeyAuth (Some "secret") headers = Middleware.Next
  ∧ Middleware.apiKeyAuth (Some "") headers ≠ Middleware.Next.
Proof.
  intros headers.
  assert (Hp : Middleware.presented_key headers = Some "secret" ∧ "secret" ≠ "")
    by (split; [vm_compute; reflexivity | discriminate]).
  split; [exact Hp |]. split.
  - apply (proj2 (key_accepted_iff "secret" headers)). exact Hp.
  - intros Hnext. apply (proj1 (key_accepted_iff "" headers)) in Hnext as [_ Hne].
    by apply Hne.
Defined.

(** A non-empty [x-api-key] header decides alone: the request passes when
    it equals the configured key and is answered 403 otherwise, whatever
    the [authorization] header holds. *)
Theorem x_api_key_decides (key x : string) (headers : gmap string string) :
  headers !! "x-api-key" = Some x →
  x ≠ "" →
  Middleware.apiKeyAuth (Some key) headers
  = if bool_decide (x = key) then Middleware.Next
    else Middleware.Answered (Routes.res_error 403 "Invalid API key").
Proof.
  intros Hx Hne.
  unfold Middleware.apiKeyAuth, Middleware.presented_key.
  rewrite Hx, (truthy_key x Hne). cbn iota.
  rewrite (truthy_key x Hne). cbn [negb].
  destruct (decide (x = key)) as [-> | Hdiff].
  - by rewrite !bool_decide_eq_true_2.
  - rewrite !bool_decide_eq_false_2; [reflexivity | exact Hdiff | congruence].
Qed.

Lemma x_api_key_decides_witness :
  let headers : gmap string string :=
    {[ "x-api-key" := "guess"; "authorization" := "Bearer secret" ]} in
  (headers !! "x-api-key" = Some "guess" ∧ "guess" ≠ "")
  ∧ Middleware.apiKeyAuth (Some "secret") headers
    = Middleware.Answered (Routes.res_error 403 "Invalid API key").
Proof.
  intros headers.
  assert (Hx : headers !! "x-api-key" = Some "guess") by (vm_compute; reflexivity).
  assert (Hne : "guess" ≠ "") by discriminate.
  split; [by split |].
  exact (x_api_key_decides "secret" "guess" headers Hx Hne).
Defined.

(** Without a usable [x-api-key], an [authorization] header in which
    ["Bearer "] does not occur is taken as the key itself: the request
    passes when the whole header equals the configured key, so the key is
    accepted without the Bearer scheme, and any other scheme word stays
    part of the compared text. *)
Theorem authorization_without_bearer (key value : string)
    (headers : gmap string string) :
  Middleware.truthy (headers !! "x-api-key") = false →
  headers !! "authorization" = Some value →
  Middleware.occurs "Bearer " value = false →
  value ≠ "" →
  Middleware.apiKeyAuth (Some key) headers
  = if bool_decide (value = key) then Middleware.Next
    else Middleware.Answered (Routes.res_error 403 "Invalid API key").
Proof.
  intros Hx Ha Habsent Hne.
  unfold Middleware.apiKeyAuth, Middleware.presented_key.
  rewrite Hx, Ha. cbn [fmap option_fmap option_map].
  rewrite (replace_absent _ _ _ Habsent), (truthy_key value Hne). cbn [negb].
  destruct (decide (value = key)) as [-> | Hdiff].
  - by rewrite !bool_decide_eq_true_2.
  - rewrite !bool_decide_eq_false_2; [reflexivity | exact Hdiff | congruence].
Qed.

Lemma authorization_without_bearer_witness :
  let raw : gmap string string := {[ "authorization" := "secret" ]} in
  let lower : gmap string string := {[ "authorization" := "bearer secret" ]} in
  Middleware.apiKeyAuth (Some "secret") raw = Middleware.Next
  ∧ Middleware.apiKeyAuth (Some "secret") lower
    = Middleware.Answered (Routes.res_error 403 "Invalid API key").
Proof.
  intros raw lower. split.
  - apply (authorization_without_bearer "secret" "secret" raw);
      solve [vm_compute; reflexivity | discriminate].
  - apply (authorization_without_bearer "secret" "bearer secret" lower);
      solve [vm_compute; reflexivity | discriminate].
Defined.

(** ** The function-calling adapter *)

Section AdapterRuns.
Context {St : Type} (svc : Adapters.ToolService St).

Lemma run_returning (c : Adapters.ToolCall) (s : St) :
  Adapters.run_async svc (Adapters.returning c) s =
  Adapters.mkTrace
    (match (svc c s).1 with
     | Resolved result => Adapters.Fulfilled result
     | Rejected error => Adapters.Failed (Adapters.ServiceFailure error)
     end) [c] (svc c s).2.
Proof.
  unfold Adapters.returning. cbn.
  destruct (svc c s) as [[result|error] s']; reflexivity.
Qed.

End AdapterRuns.

Lemma declared_names_weave :
  Adapters.declared_names Adapters.getWeaveFunctions
  = ["weave_scan_content"; "weave_scan_secrets"; "weave_check_injection";
     "weave_redact"; "weave_sandbox_execute"; "weave_check_drift";
     "weave_create_thread"].
Proof. reflexivity. Qed.

Ltac names_solver :=
  rewrite ?list_elem_of_In in *; cbn [In] in *; intuition congruence.

Ltac name_cases name :=
  destruct (String.eqb_spec name "weave_scan_content");
  [| destruct (String.eqb_spec name "weave_scan_secrets");
  [| destruct (String.eqb_spec name "weave_check_injection");
  [| destruct (String.eqb_spec name "weave_redact");
  [| destruct (String.eqb_spec name "weave_sandbox_execute");
  [| destruct (String.eqb_spec name "weave_check_drift");
  [| destruct (String.eqb_spec name "weave_create_thread")]]]]]].

(** A declared function called with an object makes exactly one service
    call and settles as that call does. *)
Lemma object_args_one_call {St : Type} (svc : Adapters.ToolService St)
    (name : string) (fields : list (string * Js.Val)) (s : St) :
  name ∈ Adapters.declared_names Adapters.getWeaveFunctions →
  ∃ c,
    Adapters.run_async svc (Adapters.handleWeaveFunction name (Js.Obj fields)) s
    = Adapters.mkTrace
        (match (svc c s).1 with
         | Resolved result => Adapters.Fulfilled result
         | Rejected error => Adapters.Failed (Adapters.ServiceFailure error)
         end) [c] (svc c s).2.
Proof.
  rewrite declared_names_weave. intros Hin.
  unfold Adapters.handleWeaveFunction.
  name_cases name; subst;
    cbn [Adapters.with_arg Adapters.get];
    try (eexists; apply run_returning).
  exfalso. names_solver.
Qed.

(** [handleWeaveFunction] knows exactly the functions that
    [getWeaveFunctions] declares: a call fails with "Unknown function"
    exactly for the names outside the declared ones; and the Gemini
    declarations are the same definitions, so they name no other
    function. *)
Theorem declared_functions_are_handled (name : string) (args : Js.Val) :
  (Adapters.handleWeaveFunction name args
     = Adapters.Settle (Adapters.Failed (Adapters.UnknownFunction name))
   ↔ name ∉ Adapters.declared_names Adapters.getWeaveFunctions)
  ∧ Adapters.getGeminiFunctionDeclarations
    = Js.Obj [("functionDeclarations", Js.Arr Adapters.getWeaveFunctions)].
Proof.
  split; [| reflexivity].
  rewrite declared_names_weave. unfold Adapters.handleWeaveFunction.
  name_cases name; subst.
  1-7: split; [| intros Hout; exfalso; apply Hout; names_solver ].
  1-7: unfold Adapters.with_arg, Adapters.returning;
       repeat match goal with
              | |- context [Adapters.get ?v ?k] => destruct (Adapters.get v k)
              end; discriminate.
  split; [| reflexivity]. intros _. names_solver.
Qed.

Lemma declared_functions_are_handled_witness :
  ("weave_delete_thread" ∉ Adapters.declared_names Adapters.getWeaveFunctions)
  ∧ Adapters.handleWeaveFunction "weave_delete_thread" (Js.Obj [])
    = Adapters.Settle (Adapters.Failed (Adapters.UnknownFunction "weave_delete_thread")).
Proof.
  assert (Hout : "weave_delete_thread"
                 ∉ Adapters.declared_names Adapters.getWeaveFunctions)
    by (rewrite declared_names_weave; names_solver).
  split; [exact Hout |].
  apply (proj2 (proj1 (declared_functions_are_handled "weave_delete_thread"
                         (Js.Obj [])))).
  exact Hout.
Defined.

(** The adapter validates nothing: a declared function called with any
    object, whatever fields it has or lacks, makes exactly one service
    call and returns that call's result or failure unchanged. *)
Theorem adapter_calls_once {St : Type} (svc : Adapters.ToolService St)
    (name : string) (fields : list (string * Js.Val)) (s : St) :
  name ∈ Adapters.declared_names Adapters.getWeaveFunctions →
  ∃ c,
    let t := Adapters.run_async svc
               (Adapters.handleWeaveFunction name (Js.Obj fields)) s in
    Adapters.invoked t = [c]
    ∧ Adapters.left t = (svc c s).2
    ∧ Adapters.settled t
      = match (svc c s).1 with
        | Resolved result => Adapters.Fulfilled result
        | Rejected error => Adapters.Failed (Adapters.ServiceFailure error)
        end.
Proof.
  intros Hin.
  destruct (object_args_one_call svc name fields s Hin) as [c Hrun].
  exists c. cbn zeta. by rewrite Hrun.
Qed.

Lemma adapter_calls_once_witness :
  ("weave_check_drift" ∈ Adapters.declared_names Adapters.getWeaveFunctions)
  ∧ ∃ c,
      let t := Adapters.run_async (St := unit)
                 (Adapters.rejecting (Ledger.thrown (Ledger.Invalid "intent")))
                 (Adapters.handleWeaveFunction "weave_check_drift" (Js.Obj [])) tt in
      Adapters.invoked t = [c]
      ∧ Adapters.left t = tt
      ∧ Adapters.settled t
        = Adapters.Failed
            (Adapters.ServiceFailure (Ledger.thrown (Ledger.Invalid "intent"))).
Proof.
  assert (Hin : "weave_check_drift"
                ∈ Adapters.declared_names Adapters.getWeaveFunctions)
    by (rewrite declared_names_weave; names_solver).
  split; [exact Hin |].
  exact (adapter_calls_once (St := unit)
           (Adapters.rejecting (Ledger.thrown (Ledger.Invalid "intent")))
           "weave_check_drift" [] tt Hin).
Defined.

(** Called with [null] or [undefined] for the arguments, every declared
    function fails with a [TypeError] before any service call, except
    [weave_create_thread], which hands the value to [createThread] as it
    is. *)
Theorem adapter_without_arguments {St : Type} (svc : Adapters.ToolService St)
    (name : string) (args : Js.Val) (s : St) :
  args = Js.Null ∨ args = Js.Undefined →
  name ∈ Adapters.declared_names Adapters.getWeaveFunctions →
  let t := Adapters.run_async svc (Adapters.handleWeaveFunction name args) s in
  if String.eqb name "weave_create_thread" then
    Adapters.invoked t = [Adapters.DomereCreateThreadWith args]
  else
    Adapters.invoked t = []
    ∧ Adapters.settled t = Adapters.Failed Adapters.TypeError
    ∧ Adapters.left t = s.
Proof.
  rewrite declared_names_weave. intros Hargs Hin.
  unfold Adapters.handleWeaveFunction.
  name_cases name; subst; cbn [String.eqb Ascii.eqb Bool.eqb];
    try (destruct Hargs as [-> | ->]; cbn; done).
  - rewrite run_returning. reflexivity.
  - exfalso. names_solver.
Qed.

Lemma adapter_without_arguments_witness :
  let t := Adapters.run_async (St := unit) (Adapters.answering Js.Null)
             (Adapters.handleWeaveFunction "weave_scan_content" Js.Null) tt in
  let u := Adapters.run_async (St := unit) (Adapters.answering Js.Null)
             (Adapters.handleWeaveFunction "weave_create_thread" Js.Null) tt in
  (Adapters.invoked t = [] ∧ Adapters.settled t = Adapters.Failed Adapters.TypeError)
  ∧ Adapters.invoked u = [Adapters.DomereCreateThreadWith Js.Null].
Proof.
  intros t u.
  assert (Hscan : "weave_scan_content"
                  ∈ Adapters.declared_names Adapters.getWeaveFunctions)
    by (rewrite declared_names_weave; names_solver).
  assert (Hcreate : "weave_create_thread"
                    ∈ Adapters.declared_names Adapters.getWeaveFunctions)
    by (rewrite declared_names_weave; names_solver).
  split.
  - destruct (adapter_without_arguments (St := unit) (Adapters.answering Js.Null)
                "weave_scan_content" Js.Null tt (or_introl eq_refl) Hscan)
      as (Hnone & Hfailed & _).
    split; assumption.
  - exact (adapter_without_arguments (St := unit) (Adapters.answering Js.Null)
             "weave_create_thread" Js.Null tt (or_introl eq_refl) Hcreate).
Defined.

(** ** The adapter beside the routes *)

(** A field of a posted object is the field the handler reads. *)
Lemma prop_post_field (id : string) (fields : list (string * Js.Val)) (key : string) :
  Js.prop (body (post id fields)) key = Adapters.field fields key.
Proof.
  unfold post, Js.prop. cbn [body].
  induction fields as [|[k v] fields IH]; cbn [list_to_map foldr Adapters.field fst snd].
  - by rewrite lookup_empty.
  - rewrite lookup_insert.
    destruct (String.eqb_spec k key) as [-> | Hne].
    + by rewrite decide_True.
    + by rewrite decide_False.
Qed.

Lemma counterpart_declared (name : string) (route : Routes.Route) :
  Adapters.counterpart name = Some route →
  name ∈ Adapters.declared_names Adapters.getWeaveFunctions.
Proof.
  rewrite declared_names_weave. unfold Adapters.counterpart.
  name_cases name; subst; cbn; try discriminate; intros _; names_solver.
Qed.

(** The adapter goes around the guard of the route: an object that the
    route of the same service method answers with 400, because a required
    field is missing or falsy, still reaches the service through
    [handleWeaveFunction]. *)
Theorem adapter_skips_route_guard {St St' : Type} (svc : Service St)
    (tsvc : Adapters.ToolService St') (name : string) (route : Routes.Route)
    (fields : list (string * Js.Val)) (s : St) (s' : St') :
  Adapters.counterpart name = Some route →
  Required.lacking route (post "" fields) = true →
  (calls (run svc (Routes.handler route (post "" fields)) s) = []
   ∧ status (response (run svc (Routes.handler route (post "" fields)) s)) = 400)
  ∧ ∃ c,
      Adapters.invoked
        (Adapters.run_async tsvc
           (Adapters.handleWeaveFunction name (Js.Obj fields)) s') = [c].
Proof.
  intros Hcounterpart Hlacking. split.
  - by apply lacking_is_rejected.
  - apply counterpart_declared in Hcounterpart.
    destruct (object_args_one_call tsvc name fields s' Hcounterpart) as [c Hrun].
    exists c. by rewrite Hrun.
Qed.

Lemma adapter_skips_route_guard_witness :
  let fields := [("original_intent", Js.Str "");
                 ("current_intent", Js.Str "summarize the document")] in
  (Adapters.counterpart "weave_check_drift" = Some Routes.PostDriftCheck
   ∧ Required.lacking Routes.PostDriftCheck (post "" fields) = true)
  ∧ calls (run (St := unit) (Services.resolving Js.Null)
             (Routes.handler Routes.PostDriftCheck (post "" fields)) tt) = []
  ∧ ∃ c,
      Adapters.invoked
        (Adapters.run_async (St := unit) (Adapters.answering Js.Null)
           (Adapters.handleWeaveFunction "weave_check_drift" (Js.Obj fields)) tt)
      = [c].
Proof.
  intros fields.
  assert (Hc : Adapters.counterpart "weave_check_drift" = Some Routes.PostDriftCheck)
    by reflexivity.
  assert (Hl : Required.lacking Routes.PostDriftCheck (post "" fields) = true)
    by (vm_compute; reflexivity).
  split; [by split |].
  destruct (adapter_skips_route_guard (St := unit) (St' := unit)
              (Services.resolving Js.Null) (Adapters.answering Js.Null)
              "weave_check_drift" Routes.PostDriftCheck fields tt tt Hc Hl)
    as [[Hcalls _] Hinvoked].
  split; assumption.
Defined.

(** Where the route accepts an object, the adapter function of the same
    service method, given that object as its arguments, makes the very
    call the route makes ([weave_create_thread] apart, which passes the
    whole object instead of the five fields the route picks). *)
Theorem adapter_same_call_as_route {St St' : Type} (svc : Service St)
    (tsvc : Adapters.ToolService St') (name : string) (route : Routes.Route)
    (fields : list (string * Js.Val)) (s : St) (s' : St') :
  Adapters.counterpart name = Some route →
  name ≠ "weave_create_thread" →
  Required.lacking route (post "" fields) = false →
  Adapters.invoked
    (Adapters.run_async tsvc (Adapters.handleWeaveFunction name (Js.Obj fields)) s')
  = Adapters.OnService <$> calls (run svc (Routes.handler route (post "" fields)) s).
Proof.
  intros Hcounterpart Hother Hlacking.
  unfold Adapters.counterpart in Hcounterpart.
  unfold Adapters.handleWeaveFunction.
  name_cases name; subst; try discriminate; try contradiction;
    cbn in Hcounterpart; injection Hcounterpart as <-;
    cbn [String.eqb Ascii.eqb Bool.eqb Adapters.with_arg Adapters.get];
    unfold Required.lacking in Hlacking;
    cbn [Required.fields existsb Required.read fst snd] in Hlacking;
    rewrite ?prop_post_field in Hlacking;
    cbn [Routes.handler];
    unfold Routes.post_scan, Routes.post_scan_secrets,
      Routes.post_injection_check, Routes.post_drift_check, Routes.with_required;
    cbn zeta; rewrite ?prop_post_field;
    repeat match goal with
           | H : context [Js.falsy ?v] |- _ => destruct (Js.falsy v)
           end;
    try discriminate;
    cbn [orb]; rewrite run_returning, run_try_await; reflexivity.
Qed.

Lemma adapter_same_call_as_route_witness :
  let fields := [("content", Js.Str "my key is sk-123");
                 ("scan_types", Js.Arr [Js.Str "secrets"])] in
  (Adapters.counterpart "weave_scan_content" = Some Routes.PostScan
   ∧ "weave_scan_content" ≠ "weave_create_thread"
   ∧ Required.lacking Routes.PostScan (post "" fields) = false)
  ∧ Adapters.invoked
      (Adapters.run_async (St := unit) (Adapters.answering Js.Null)
         (Adapters.handleWeaveFunction "weave_scan_content" (Js.Obj fields)) tt)
    = [Adapters.OnService
         (Scan (Js.Str "my key is sk-123") (Js.Arr [Js.Str "secrets"]))].
Proof.
  intros fields.
  assert (Hc : Adapters.counterpart "weave_scan_content" = Some Routes.PostScan)
    by reflexivity.
  assert (Hn : "weave_scan_content" ≠ "weave_create_thread") by discriminate.
  assert (Hl : Required.lacking Routes.PostScan (post "" fields) = false)
    by (vm_compute; reflexivity).
  split; [by repeat split |].
  rewrite (adapter_same_call_as_route (St := unit) (St' := unit)
             (Services.resolving Js.Null) (Adapters.answering Js.Null)
             "weave_scan_content" Routes.PostScan fields tt tt Hc Hn Hl).
  vm_compute. reflexivity.
Defined.

(** ** The LangChain tools *)

Section ToolProperties.
Context (parse : string → option Js.Val) (stringify : Js.Val → Js.Val).

(** The two tools with a [try] block, run against any service. *)
Lemma caught_or_resolved {St : Type} (svc : Adapters.ToolService St)
    (message : string) (c : Adapters.ToolCall) (s : St) :
  let t := Adapters.run_async svc
             (Adapters.Invoke c (Adapters.stringified_or stringify message)) s in
  Adapters.invoked t = [c]
  ∧ Adapters.settled t
    = match (svc c s).1 with
      | Resolved result => Adapters.Fulfilled (stringify result)
      | Rejected _ =>
          Adapters.Fulfilled (stringify (Js.Obj [("error", Js.Str message)]))
      end.
Proof. cbn. destruct (svc c s) as [[result|error] s']; done. Qed.

End ToolProperties.

(** When the service fails, five of the seven tools of [getWeaveTools]
    reject with the service's failure, and the sandbox and drift tools
    swallow it: each returns the JSON text of its own fixed "Invalid
    input" error object, the one it returns for input that is not JSON,
    whatever the failure was. *)
Theorem tools_on_service_failure (parse : string → option Js.Val)
    (stringify : Js.Val → Js.Val) {St : Type} (e : Failure) (input : string)
    (s : St) :
  Forall
    (λ tool,
       let t := Adapters.run_async (Adapters.rejecting e)
                  (Adapters.tool_call tool input) s in
       let swallowed message :=
         Adapters.settled t
         = Adapters.Fulfilled (stringify (Js.Obj [("error", Js.Str message)])) in
       if String.eqb (Adapters.tool_name tool) "weave_hord_sandbox" then
         swallowed "Invalid input. Expected JSON with code and language."
       else if String.eqb (Adapters.tool_name tool) "weave_domere_drift" then
         swallowed
           "Invalid input. Expected JSON with original_intent and current_intent."
       else Adapters.settled t = Adapters.Failed (Adapters.ServiceFailure e))
    (Adapters.getWeaveTools parse stringify).
Proof.
  unfold Adapters.getWeaveTools.
  repeat apply Forall_cons_2; try apply Forall_nil_2;
    cbn [Adapters.tool_name Adapters.tool_call String.eqb Ascii.eqb Bool.eqb];
    try reflexivity.
  - unfold Adapters.hord_sandbox_call.
    destruct (parse input) as [parsed|]; [| reflexivity].
    destruct (Adapters.get parsed "code"), (Adapters.get parsed "language");
      reflexivity.
  - unfold Adapters.domere_drift_call.
    destruct (parse input) as [parsed|]; [| reflexivity].
    destruct (Adapters.get parsed "original_intent"),
      (Adapters.get parsed "current_intent"), (Adapters.get parsed "constraints");
      reflexivity.
Qed.

(** The sandbox and drift tools never reject: whatever the input and the
    service do, they return a text, and that text is the "Invalid input"
    error object unless a service call was made and resolved. *)
Theorem catching_tools_never_reject (parse : string → option Js.Val)
    (stringify : Js.Val → Js.Val) {St : Type} (svc : Adapters.ToolService St)
    (input : string) (s : St) :
  let answered (message : string) (t : Adapters.Trace St) :=
    Adapters.settled t
    = Adapters.Fulfilled (stringify (Js.Obj [("error", Js.Str message)]))
    ∨ ∃ c result,
        Adapters.invoked t = [c]
        ∧ (svc c s).1 = Resolved result
        ∧ Adapters.settled t = Adapters.Fulfilled (stringify result) in
  answered Adapters.sandbox_message
    (Adapters.run_async svc (Adapters.hord_sandbox_call parse stringify input) s)
  ∧ answered Adapters.drift_message
      (Adapters.run_async svc (Adapters.domere_drift_call parse stringify input) s).
Proof.
  cbn zeta. split.
  - unfold Adapters.hord_sandbox_call.
    destruct (parse input) as [parsed|]; [| by left].
    destruct (Adapters.get parsed "code") as [code|]; [| by left].
    destruct (Adapters.get parsed "language") as [language|]; [| by left].
    destruct (caught_or_resolved stringify svc Adapters.sandbox_message
                (Adapters.HordSandboxExecute code
                   (Adapters.or_else language (Js.Str "javascript")) Js.Undefined) s)
      as [Hinvoked Hsettled].
    rewrite Hsettled, Hinvoked.
    destruct (svc _ s).1 as [result|error] eqn:E; [right | by left].
    by exists (Adapters.HordSandboxExecute code
                 (Adapters.or_else language (Js.Str "javascript")) Js.Undefined),
              result.
  - unfold Adapters.domere_drift_call.
    destruct (parse input) as [parsed|]; [| by left].
    destruct (Adapters.get parsed "original_intent") as [original|]; [| by left].
    destruct (Adapters.get parsed "current_intent") as [current|]; [| by left].
    destruct (Adapters.get parsed "constraints") as [constraints|]; [| by left].
    destruct (caught_or_resolved stringify svc Adapters.drift_message
                (Adapters.OnService (CheckDrift original current constraints)) s)
      as [Hinvoked Hsettled].
    rewrite Hsettled, Hinvoked.
    destruct (svc _ s).1 as [result|error] eqn:E; [right | by left].
    by exists (Adapters.OnService (CheckDrift original current constraints)), result.
Qed.

(** The scanning tools take every input, the empty string too: each makes
    one service call with the input as it is, where the route of the same
    method makes that call only for non-empty content and answers the
    empty content without calling the service. *)
Theorem tools_take_empty_input (parse : string → option Js.Val)
    (stringify : Js.Val → Js.Val) {St St' : Type} (svc : Service St)
    (tsvc : Adapters.ToolService St') (input : string) (s : St) (s' : St') :
  let req := post "" [("content", Js.Str input)] in
  let by_tool (call : string → Adapters.Async) :=
    Adapters.invoked (Adapters.run_async tsvc (call input) s') in
  let by_route (route : Routes.Route) :=
    calls (run svc (Routes.handler route req) s) in
  let unless_empty (c : Call) := if String.eqb input "" then [] else [c] in
  (by_tool (Adapters.mund_scan_call stringify)
     = [Adapters.OnService (Scan (Js.Str input) Js.Undefined)]
   ∧ by_route Routes.PostScan = unless_empty (Scan (Js.Str input) Js.Undefined))
  ∧ (by_tool (Adapters.mund_secrets_call stringify)
       = [Adapters.OnService (ScanSecrets (Js.Str input))]
     ∧ by_route Routes.PostScanSecrets = unless_empty (ScanSecrets (Js.Str input)))
  ∧ (by_tool (Adapters.mund_injection_call stringify)
       = [Adapters.OnService (ScanInjection (Js.Str input))]
     ∧ by_route Routes.PostScanInjection
       = unless_empty (ScanInjection (Js.Str input)))
  ∧ (by_tool (Adapters.domere_injection_call stringify)
       = [Adapters.OnService (CheckInjection (Js.Str input))]
     ∧ by_route Routes.PostInjectionCheck
       = unless_empty (CheckInjection (Js.Str input))).
Proof.
  cbn zeta.
  assert (Htool : ∀ c,
    Adapters.invoked
      (Adapters.run_async tsvc (Adapters.Invoke c (Adapters.stringified stringify)) s')
    = [c]).
  { intros c. cbn. by destruct (tsvc c s') as [[result|error] s'']. }
  unfold Adapters.mund_scan_call, Adapters.mund_secrets_call,
    Adapters.mund_injection_call, Adapters.domere_injection_call.
  rewrite !Htool.
  cbn [Routes.handler].
  unfold Routes.post_scan, Routes.post_scan_secrets, Routes.post_scan_injection,
    Routes.post_injection_check, Routes.with_required.
  cbn zeta. rewrite !prop_post_field.
  cbn [Adapters.field String.eqb Ascii.eqb Bool.eqb].
  unfold Js.falsy, Js.truthy.
  destruct (String.eqb input ""); cbn [negb];
    rewrite ?run_respond, ?run_try_await; done.
Qed.

(** What the two parsing tools do with the parsed input.  Input that is
    not JSON, and the JSON text [null], are answered with the "Invalid
    input" text and no service call.  An object is not validated: the
    sandbox tool runs its [code] field, present or not, as javascript
    when [language] is missing or falsy, and the drift tool passes the
    three fields to [checkDrift] as it finds them. *)
Theorem parsing_tools_on_input (parse : string → option Js.Val)
    (stringify : Js.Val → Js.Val) {St : Type} (svc : Adapters.ToolService St)
    (input : string) (s : St) :
  let sandbox :=
    Adapters.run_async svc (Adapters.hord_sandbox_call parse stringify input) s in
  let drift :=
    Adapters.run_async svc (Adapters.domere_drift_call parse stringify input) s in
  (parse input = None ∨ parse input = Some Js.Null →
   Adapters.invoked sandbox = [] ∧ Adapters.invoked drift = []
   ∧ Adapters.settled sandbox
     = Adapters.Fulfilled
         (stringify (Js.Obj [("error", Js.Str Adapters.sandbox_message)]))
   ∧ Adapters.settled drift
     = Adapters.Fulfilled
         (stringify (Js.Obj [("error", Js.Str Adapters.drift_message)])))
  ∧ (∀ fields,
       parse input = Some (Js.Obj fields) →
       Adapters.invoked drift
       = [Adapters.OnService
            (CheckDrift (Adapters.field fields "original_intent")
               (Adapters.field fields "current_intent")
               (Adapters.field fields "constraints"))]
       ∧ (Js.truthy (Adapters.field fields "language") = false →
          Adapters.invoked sandbox
          = [Adapters.HordSandboxExecute (Adapters.field fields "code")
               (Js.Str "javascript") Js.Undefined])).
Proof.
  cbn zeta. unfold Adapters.hord_sandbox_call, Adapters.domere_drift_call. split.
  - intros [-> | ->]; cbn; done.
  - intros fields ->. cbn [Adapters.get]. split.
    + by destruct (caught_or_resolved stringify svc Adapters.drift_message
                     (Adapters.OnService
                        (CheckDrift (Adapters.field fields "original_intent")
                           (Adapters.field fields "current_intent")
                           (Adapters.field fields "constraints"))) s).
    + intros Hlanguage. unfold Adapters.or_else. rewrite Hlanguage.
      by destruct (caught_or_resolved stringify svc Adapters.sandbox_message
                     (Adapters.HordSandboxExecute (Adapters.field fields "code")
                        (Js.Str "javascript") Js.Undefined) s).
Qed.

Lemma parsing_tools_on_input_witness :
  let svc : Adapters.ToolService unit := Adapters.answering (Js.Num (Js.NumFinite 2)) in
  let run_sandbox input :=
    Adapters.run_async svc (Adapters.hord_sandbox_call Adapters.three_texts id input) tt in
  let run_drift input :=
    Adapters.run_async svc (Adapters.domere_drift_call Adapters.three_texts id input) tt in
  (Adapters.three_texts "null" = Some Js.Null
   ∧ Adapters.invoked (run_sandbox "null") = []
   ∧ Adapters.invoked (run_drift "null") = [])
  ∧ (Adapters.three_texts "{}" = Some (Js.Obj [])
     ∧ Adapters.invoked (run_drift "{}")
       = [Adapters.OnService (CheckDrift Js.Undefined Js.Undefined Js.Undefined)])
  ∧ (Adapters.three_texts Adapters.code_only = Some (Js.Obj [("code", Js.Str "1 + 1")])
     ∧ Adapters.invoked (run_sandbox Adapters.code_only)
       = [Adapters.HordSandboxExecute (Js.Str "1 + 1") (Js.Str "javascript")
            Js.Undefined]).
Proof.
  intros svc run_sandbox run_drift.
  assert (Hnull : Adapters.three_texts "null" = Some Js.Null) by reflexivity.
  assert (Hempty : Adapters.three_texts "{}" = Some (Js.Obj [])) by reflexivity.
  assert (Hcode : Adapters.three_texts Adapters.code_only
                  = Some (Js.Obj [("code", Js.Str "1 + 1")])) by reflexivity.
  split; [| split].
  - split; [exact Hnull |].
    destruct (parsing_tools_on_input Adapters.three_texts id svc "null" tt)
      as [Hinvalid _].
    destruct (Hinvalid (or_intror Hnull)) as (Hsandbox & Hdrift & _).
    split; assumption.
  - split; [exact Hempty |].
    destruct (parsing_tools_on_input Adapters.three_texts id svc "{}" tt)
      as [_ Hobject].
    exact (proj1 (Hobject [] Hempty)).
  - split; [exact Hcode |].
    destruct (parsing_tools_on_input Adapters.three_texts id svc
                Adapters.code_only tt) as [_ Hobject].
    exact (proj2 (Hobject [("code", Js.Str "1 + 1")] Hcode) eq_refl).
Defined.

(** ** What a handler does not read *)

(** A handler looks at the URL parameter and at the fields it names,
    nothing else: two requests that agree on these are handled alike,
    whatever else their bodies and queries hold.  POST /mund/rules is the
    exception, it passes the whole body on. *)
Theorem unread_fields_are_ignored (route : Routes.Route) (req req' : Request) :
  route ≠ Routes.PostRules →
  params_id req = params_id req' →
  Forall (λ f, Required.read req f.1 f.2 = Required.read req' f.1 f.2)
    (Required.fields route ++ Required.optional route) →
  Routes.handler route req = Routes.handler route req'.
Proof.
  intros Hroute Hid Hsame.
  destruct route; try contradiction;
    cbn [Required.fields Required.optional app] in Hsame;
    repeat match goal with
           | H : Forall _ (_ :: _) |- _ =>
               apply Forall_cons_1 in H as [? H]
           end;
    cbn [Required.read fst snd] in *;
    cbn [Routes.handler];
    unfold Routes.post_threads, Routes.get_threads, Routes.get_thread,
      Routes.post_hops, Routes.post_close, Routes.post_verify,
      Routes.post_intent_analyze, Routes.post_drift_check,
      Routes.post_intent_compare, Routes.post_language_detect,
      Routes.post_language_analyze, Routes.post_injection_check,
      Routes.get_anchor_estimate, Routes.post_anchor_prepare,
      Routes.post_anchor_submit, Routes.post_anchor_verify,
      Routes.get_anchor_status, Routes.post_scan, Routes.post_scan_secrets,
      Routes.post_scan_pii, Routes.post_scan_injection,
      Routes.post_scan_exfiltration, Routes.post_scan_code, Routes.get_rules,
      Routes.put_rule_enable, Routes.put_rule_disable, Routes.get_stats,
      Routes.with_required;
    cbn zeta;
    repeat match goal with
           | H : Js.prop _ _ = Js.prop _ _ |- _ => rewrite H; clear H
           end;
    rewrite ?Hid; reflexivity.
Qed.

Lemma unread_fields_are_ignored_witness :
  let plain :=
    post "t-1" [("agent_id", Js.Str "agent-7"); ("agent_type", Js.Str "llm");
                ("received_intent", Js.Str "summarize"); ("actions", Js.Arr [])] in
  let padded :=
    post "t-1" [("agent_id", Js.Str "agent-7"); ("agent_type", Js.Str "llm");
                ("received_intent", Js.Str "summarize"); ("actions", Js.Arr []);
                ("thread_id", Js.Str "t-2"); ("sequence_number", Js.Str "40")] in
  Routes.handler Routes.PostHops plain = Routes.handler Routes.PostHops padded.
Proof.
  intros plain padded.
  apply (unread_fields_are_ignored Routes.PostHops plain padded).
  - discriminate.
  - reflexivity.
  - repeat apply Forall_cons_2; try apply Forall_nil_2; vm_compute; reflexivity.
Defined.
